(** * Smart Code Review API: the analysis pipeline of [BackendAPI-main.py]

    A shallow embedding of the review pipeline: the complexity analyzer, the
    rule-based fallback analyzer, the generative analyzer with its JSON
    extraction, the review assembler ([review_code]) and the in-memory review
    store ([list_reviews]).

    Conventions.
    - Text is a [string] of 8-bit characters; a character is read as the code
      point of the same number, and the character classes of Python's [str]
      methods and of [re] are given for these 256 code points.
    - Python values that travel through the pipeline as dictionaries (the
      payload returned by [json.loads] or built by the fallback analyzer) are
      values of [pyval].
    - A Python exception inside a [try] block is [None] in an [option]; the
      HTTP layer turns it into [HttpError].
    - The completion service, [json.loads], the clock and the field
      validators of the response models are not code of this repository:
      the first three are inputs of the functions that use them, the
      validators are the interface [Validators]. *)

From Stdlib Require Import ZArith List Bool Ascii String Lia.
From Stdlib Require Import Numbers.DecimalString.
From Stdlib Require Import Sorting.Sorted.
Import ListNotations.

Local Open Scope string_scope.
Local Open Scope list_scope.

(** ** Characters and strings as Python sees them *)

Definition code_point (c : ascii) : N := N_of_ascii c.

Definition in_range (lo hi : N) (c : ascii) : bool :=
  ((lo <=? code_point c) && (code_point c <=? hi))%N.

(** [str.isspace], also the class [\s] of [re] on [str] patterns. *)
Definition is_space (c : ascii) : bool :=
  in_range 9 13 c || in_range 28 32 c || in_range 133 133 c || in_range 160 160 c.

(** The class [[a-z]]. *)
Definition is_lower_az (c : ascii) : bool := in_range 97 122 c.

(** The word characters of [re] on [str] patterns: alphanumerics and [_]. *)
Definition is_word (c : ascii) : bool :=
  in_range 48 57 c || in_range 65 90 c || in_range 95 95 c || in_range 97 122 c
  || in_range 170 170 c || in_range 178 179 c || in_range 181 181 c
  || in_range 185 186 c || in_range 188 190 c || in_range 192 214 c
  || in_range 216 246 c || in_range 248 255 c.

Definition newline : ascii := ascii_of_nat 10.

(** [needle in hay]. *)
Fixpoint contains (needle hay : string) : bool :=
  prefix needle hay
  || match hay with
     | EmptyString => false
     | String _ rest => contains needle rest
     end.

(** [s.split('\n')]: a text without a newline is one line, and every newline
    starts a new one, so the result is never empty. *)
Fixpoint split_lines (s : string) : list string :=
  match s with
  | EmptyString => [EmptyString]
  | String c rest =>
      if Ascii.eqb c newline then EmptyString :: split_lines rest
      else match split_lines rest with
           | [] => [String c EmptyString]
           | l :: ls => String c l :: ls
           end
  end.

(** [s.lstrip()]. *)
Fixpoint lstrip (s : string) : string :=
  match s with
  | EmptyString => EmptyString
  | String c rest => if is_space c then lstrip rest else s
  end.

(** [bool(s.strip())]: some character of [s] is not white space. *)
Fixpoint strip_nonempty (s : string) : bool :=
  match s with
  | EmptyString => false
  | String c rest => negb (is_space c) || strip_nonempty rest
  end.

(** [str(n)] for an integer. *)
Definition str_of_Z (z : Z) : string := NilEmpty.string_of_int (Z.to_int z).

(** ** The fragment of [re] the program uses

    A backtracking matcher in continuation style: alternatives are tried in
    order, a repetition is greedy and gives characters back one at a time,
    which is the order in which [re] explores a pattern. *)

Inductive regex : Type :=
| Eps
| Lit (c : ascii)
| Cls (p : ascii -> bool)
| Star (p : ascii -> bool)
| WordB
| Seq (r1 r2 : regex)
| Alt (r1 r2 : regex).

Definition is_word_at (c : option ascii) : bool :=
  match c with Some x => is_word x | None => false end.

Definition first_char (s : string) : option ascii :=
  match s with EmptyString => None | String c _ => Some c end.

Section Matcher.
Context {A : Type}.

Fixpoint star_at (p : ascii -> bool) (k : option ascii -> string -> option A)
    (prev : option ascii) (s : string) : option A :=
  match s with
  | String c rest =>
      if p c then
        match star_at p k (Some c) rest with
        | Some x => Some x
        | None => k prev s
        end
      else k prev s
  | EmptyString => k prev s
  end.

Fixpoint match_at (r : regex) (prev : option ascii) (s : string)
    (k : option ascii -> string -> option A) : option A :=
  match r with
  | Eps => k prev s
  | Lit c =>
      match s with
      | String c' rest => if Ascii.eqb c c' then k (Some c') rest else None
      | EmptyString => None
      end
  | Cls p =>
      match s with
      | String c' rest => if p c' then k (Some c') rest else None
      | EmptyString => None
      end
  | Star p => star_at p k prev s
  | WordB =>
      if xorb (is_word_at prev) (is_word_at (first_char s)) then k prev s
      else None
  | Seq r1 r2 => match_at r1 prev s (fun prev' s' => match_at r2 prev' s' k)
  | Alt r1 r2 =>
      match match_at r1 prev s k with
      | Some x => Some x
      | None => match_at r2 prev s k
      end
  end.
End Matcher.

(** The text left after the first match of [r] that starts exactly here. *)
Definition match_here (r : regex) (prev : option ascii) (s : string) : option string :=
  match_at r prev s (fun _ rest => Some rest).

(** [re.search(r, s)]: the text of the leftmost match, [m.group()]. *)
Fixpoint search_from (r : regex) (prev : option ascii) (s : string) : option string :=
  match match_here r prev s with
  | Some rest => Some (substring 0 (length s - length rest) s)
  | None =>
      match s with
      | EmptyString => None
      | String c rest => search_from r (Some c) rest
      end
  end.

Definition re_search (r : regex) (s : string) : option string := search_from r None s.

Definition re_found (r : regex) (s : string) : bool :=
  match re_search r s with Some _ => true | None => false end.

(** [len(re.findall(r, s))]: matches do not overlap, so [skip] characters of
    the last match are passed over before the next attempt. *)
Fixpoint findall_from (r : regex) (prev : option ascii) (s : string) (skip : nat) : nat :=
  match skip with
  | S skip' =>
      match s with
      | EmptyString => 0
      | String c rest => findall_from r (Some c) rest skip'
      end
  | O =>
      match match_here r prev s with
      | Some rest =>
          match s with
          | EmptyString => 1
          | String c rest' =>
              S (findall_from r (Some c) rest' (length s - length rest - 1))
          end
      | None =>
          match s with
          | EmptyString => 0
          | String c rest' => findall_from r (Some c) rest' 0
          end
      end
  end.

Definition re_findall_count (r : regex) (s : string) : nat := findall_from r None s 0.

Fixpoint lit (s : string) : regex :=
  match s with
  | EmptyString => Eps
  | String c rest => Seq (Lit c) (lit rest)
  end.

Fixpoint seqs (rs : list regex) : regex :=
  match rs with
  | [] => Eps
  | r :: rest => Seq r (seqs rest)
  end.

(** [r'\b(if|for|while|switch|case)\b'] *)
Definition re_control : regex :=
  seqs [WordB;
        Alt (lit "if") (Alt (lit "for") (Alt (lit "while") (Alt (lit "switch") (lit "case"))));
        WordB].

(** [r'\b(print|console\.log)\('] *)
Definition re_debug : regex :=
  seqs [WordB; Alt (lit "print") (lit "console.log"); Lit "("%char].

(** [r'\b[a-z]\s*=\s*'] *)
Definition re_short_var : regex :=
  seqs [WordB; Cls is_lower_az; Star is_space; Lit "="%char; Star is_space].

(** [r'\{.*\}'] under [re.DOTALL]: the dot takes every character. *)
Definition re_json : regex :=
  seqs [Lit "{"%char; Star (fun _ => true); Lit "}"%char].

(** ** Python values

    Floating-point numbers are kept abstract: the pipeline only subtracts
    the historical average from a score, compares the difference with zero
    and prints it. *)

Class PyFloat : Type := {
  pyfloat : Type;
  float_sub_int : pyfloat -> Z -> pyfloat;
  float_gt_zero : pyfloat -> bool;
  float_str : pyfloat -> string
}.

(** What [json.loads] can return, which is also what the fallback analyzer
    builds. A dictionary keeps its items in insertion order. *)
#[warnings="-register-all"] Inductive pyval `{PyFloat} : Type :=
| JNull
| JBool (b : bool)
| JInt (z : Z)
| JFloat (f : pyfloat)
| JStr (s : string)
| JList (items : list pyval)
| JDict (items : list (string * pyval)).

(** The validators the response models apply to a field of type [int],
    [str], [bool], [Dict[str, str]] and [List[str]]. They belong to the
    modelling library; all its versions accept a value that already has the
    type of the field and return it unchanged. *)
Class Validators `{PyFloat} : Type := {
  validate_int : pyval -> option Z;
  validate_str : pyval -> option string;
  validate_bool : pyval -> option bool;
  validate_str_dict : pyval -> option (list (string * string));
  validate_str_list : pyval -> option (list string);
  validate_int_int : forall z, validate_int (JInt z) = Some z;
  validate_str_str : forall s, validate_str (JStr s) = Some s;
  validate_bool_bool : forall b, validate_bool (JBool b) = Some b;
  validate_str_dict_strs : forall kvs,
    NoDup (map fst kvs) ->
    validate_str_dict (JDict (map (fun kv => (fst kv, JStr (snd kv))) kvs)) = Some kvs;
  validate_str_list_strs : forall l,
    validate_str_list (JList (map JStr l)) = Some l
}.

(** A runtime whose payloads hold no floating-point number. *)
Definition no_floats : PyFloat :=
  {| pyfloat := Empty_set;
     float_sub_int := fun f _ => f;
     float_gt_zero := fun f => match f with end;
     float_str := fun f => match f with end |}.

(** [f] on every element, failing as soon as one element fails. *)
Fixpoint traverse {A B : Type} (f : A -> option B) (l : list A) : option (list B) :=
  match l with
  | [] => Some []
  | x :: rest =>
      match f x with
      | Some y =>
          match traverse f rest with
          | Some ys => Some (y :: ys)
          | None => None
          end
      | None => None
      end
  end.

Definition strict_int (v : @pyval no_floats) : option Z :=
  match v with JInt z => Some z | _ => None end.

Definition strict_str (v : @pyval no_floats) : option string :=
  match v with JStr s => Some s | _ => None end.

Definition strict_bool (v : @pyval no_floats) : option bool :=
  match v with JBool b => Some b | _ => None end.

Definition strict_str_dict (v : @pyval no_floats) : option (list (string * string)) :=
  match v with
  | JDict items =>
      traverse (fun kv => match strict_str (snd kv) with
                          | Some s => Some (fst kv, s)
                          | None => None
                          end) items
  | _ => None
  end.

Definition strict_str_list (v : @pyval no_floats) : option (list string) :=
  match v with
  | JList items => traverse strict_str items
  | _ => None
  end.

(** Validation in strict mode: only a value of the field's own type passes. *)
Definition strict_validators : @Validators no_floats.
Proof.
  refine {| validate_int := strict_int;
            validate_str := strict_str;
            validate_bool := strict_bool;
            validate_str_dict := strict_str_dict;
            validate_str_list := strict_str_list;
            validate_int_int := fun z => eq_refl;
            validate_str_str := fun s => eq_refl;
            validate_bool_bool := fun b => eq_refl |}.
  - intros kvs _. unfold strict_str_dict.
    induction kvs as [|[k v] kvs IH]; simpl; [reflexivity|].
    now rewrite IH.
  - intros l. unfold strict_str_list.
    induction l as [|x l IH]; simpl; [reflexivity|].
    now rewrite IH.
Defined.

(** [d[key]] on the items of a dictionary. *)
Fixpoint assoc {B : Type} (key : string) (items : list (string * B)) : option B :=
  match items with
  | [] => None
  | (k, v) :: rest => if String.eqb key k then Some v else assoc key rest
  end.

(** [v.get(key, default)]; [None] is the [AttributeError] of a value that
    is not a dictionary. *)
Definition py_get `{PyFloat} (v : pyval) (key : string) (default : pyval) : option pyval :=
  match v with
  | JDict items =>
      match assoc key items with
      | Some x => Some x
      | None => Some default
      end
  | _ => None
  end.

(** ** Complexity analyzer *)

Record complexity : Type := {
  total_lines : Z;
  code_lines : Z;
  max_nesting : Z;
  control_structures : Z;
  complexity_score : Z
}.

(** [len(line) - len(line.lstrip())] *)
Definition indent_of (line : string) : Z :=
  Z.of_nat (length line) - Z.of_nat (length (lstrip line)).

Definition analyze_code_complexity (code : string) : complexity :=
  let lines := split_lines code in
  let non_empty_lines := filter strip_nonempty lines in
  let max_nesting :=
    fold_left (fun max_nesting line =>
                 let current_nesting := (indent_of line / 4)%Z in
                 Z.max max_nesting current_nesting)
              lines 0%Z in
  let control_structures := Z.of_nat (re_findall_count re_control code) in
  {| total_lines := Z.of_nat (List.length lines);
     code_lines := Z.of_nat (List.length non_empty_lines);
     max_nesting := max_nesting;
     control_structures := control_structures;
     complexity_score := Z.min 100 (max_nesting * 10 + control_structures * 2) |}.

(** ** Rule-based fallback analyzer *)

Section Fallback.
Context `{PyFloat}.

(** The dictionary appended for one finding, keys in the order of the source. *)
Definition issue_dict (severity title description : string) (line : nat)
    (impact fix_time business_impact suggestion : string) (auto_fix : bool) : pyval :=
  JDict [("severity", JStr severity);
         ("title", JStr title);
         ("description", JStr description);
         ("line", JInt (Z.of_nat line));
         ("impact", JStr impact);
         ("fix_time", JStr fix_time);
         ("business_impact", JStr business_impact);
         ("suggestion", JStr suggestion);
         ("auto_fix_available", JBool auto_fix)].

Definition line_text (i : nat) : string := "Line " ++ str_of_Z (Z.of_nat i).

Definition todo_issue (i : nat) : pyval :=
  issue_dict "low" "Unresolved TODO/FIXME"
    (line_text i ++ " contains unresolved TODO or FIXME comment") i
    "Low" "5 min" "Code maintainability"
    "Address the TODO or create a ticket to track it" false.

Definition debug_issue (i : nat) : pyval :=
  issue_dict "low" "Debug Statement Found"
    (line_text i ++ " contains a print/log statement that should be removed") i
    "Low" "1 min" "Production logs pollution"
    "Remove debug statement or use proper logging" true.

Definition short_var_issue (i : nat) : pyval :=
  issue_dict "low" "Non-descriptive Variable Name"
    (line_text i ++ " uses a single-letter variable name") i
    "Low" "2 min" "Code readability"
    "Use a descriptive variable name" false.

Definition try_issue (i : nat) : pyval :=
  issue_dict "medium" "Incomplete Error Handling"
    (line_text i ++ " has try block without except clause") i
    "Medium" "10 min" "Potential unhandled exceptions"
    "Add except clause with proper error handling" true.

Definition has_todo (line : string) : bool :=
  contains "TODO" line || contains "FIXME" line.

Definition has_debug (line : string) : bool := re_found re_debug line.

Definition has_short_var (line : string) : bool :=
  re_found re_short_var line && negb (contains "for" line).

(** The inner loop [for j in range(i, min(i+20, len(lines)))] with its
    [break]: is there a [j] in the range with ['except' in lines[j]]. *)
Definition has_except (lines : list string) (i : nat) : bool :=
  existsb (fun j => contains "except" (nth j lines ""))
          (seq i (Nat.min (i + 20) (List.length lines) - i)).

(** What each of the four checks appends while the outer loop is at line
    [i] (1-based). *)
Definition todo_part (i : nat) (line : string) : list pyval :=
  if has_todo line then [todo_issue i] else [].

Definition debug_part (i : nat) (line : string) : list pyval :=
  if has_debug line then [debug_issue i] else [].

Definition short_var_part (i : nat) (line : string) : list pyval :=
  if has_short_var line then [short_var_issue i] else [].

Definition try_part (lines : list string) (i : nat) (line : string) : list pyval :=
  if contains "try:" line
  then if negb (has_except lines i) then [try_issue i] else []
  else [].

Definition line_issues (lines : list string) (i : nat) (line : string) : list pyval :=
  todo_part i line ++ debug_part i line ++ short_var_part i line
  ++ try_part lines i line.

(** [enumerate(lines, 1)] *)
Definition enumerate1 {B : Type} (l : list B) : list (nat * B) :=
  combine (seq 1 (List.length l)) l.

(** The list [issues] when the scan is over. *)
Definition scan_issues (code : string) : list pyval :=
  let lines := split_lines code in
  flat_map (fun '(i, line) => line_issues lines i line) (enumerate1 lines).

Definition fallback_score (code : string) : Z :=
  Z.max 50 (100 - complexity_score (analyze_code_complexity code)).

Definition fallback_metrics (code : string) : list (string * pyval) :=
  [("complexity",
    JStr (if (complexity_score (analyze_code_complexity code) <? 50)%Z
          then "Medium" else "High"));
   ("maintainability", JStr "Good");
   ("security", JStr "Needs Review");
   ("performance", JStr "Good")].

Definition fallback_insights : list pyval :=
  [JStr "Consider adding more comments for complex logic";
   JStr "Follow consistent naming conventions";
   JStr "Add unit tests for critical functions"].

Definition generate_fallback_review (code language : string) : pyval :=
  JDict [("score", JInt (fallback_score code));
         ("issues", JList (firstn 10 (scan_issues code)));
         ("metrics", JDict (fallback_metrics code));
         ("team_insights", JList fallback_insights)].
End Fallback.

(** ** Generative analyzer

    What the [try] block of [generate_llm_review] gets from the completion
    service: an exception of class [Exception] (from the call or from
    reading the reply), or the text of the reply. The prompt, and with it
    the team context, only travels to the service. *)
Inductive llm_outcome : Type :=
| LLMRaises
| LLMContent (content : string).

(** What an endpoint answers: a body, or an error status. *)
Inductive http_result (A : Type) : Type :=
| Ok (body : A)
| HttpError (status : Z).
Arguments Ok {A} body.
Arguments HttpError {A} status.

Section Pipeline.
Context `{V : Validators}.

(** [json.loads]; [None] is its [JSONDecodeError]. *)
Variable json_loads : string -> option pyval.

(** The body of the [try] block; [None] is an exception caught by
    [except Exception]. *)
Definition llm_attempt (reply : llm_outcome) : option pyval :=
  match reply with
  | LLMRaises => None
  | LLMContent content =>
      match re_search re_json content with
      | Some text => json_loads text
      | None => None
      end
  end.

Definition generate_llm_review (reply : llm_outcome) (code language : string) : pyval :=
  match llm_attempt reply with
  | Some result => result
  | None => generate_fallback_review code language
  end.

(** ** Review assembler *)

Record Issue : Type := {
  issue_id : Z;
  severity : string;
  title : string;
  description : string;
  line : Z;
  impact : string;
  fix_time : string;
  business_impact : string;
  suggestion : string;
  auto_fix_available : bool;
  code_snippet : option string
}.

Record ReviewResponse : Type := {
  review_id : string;
  score : Z;
  improvement : string;
  priority : list Issue;
  metrics : list (string * string);
  team_insights : list string;
  timestamp : string
}.

Record CodeReviewRequest : Type := {
  code : string;
  language : string;
  filename : string;
  team_id : string
}.

Definition bind {A B : Type} (m : option A) (f : A -> option B) : option B :=
  match m with
  | Some x => f x
  | None => None
  end.

Notation "x <- m ;; k" := (bind m (fun x => k))
  (at level 61, m at next level, right associativity).

(** [f"+{diff}" if diff > 0 else str(diff)] for an integer difference. *)
Definition signed_text (diff : Z) : string :=
  if (0 <? diff)%Z then String.append "+" (str_of_Z diff) else str_of_Z diff.

(** [str(n)] and an f-string refuse an integer of more than
    [sys.int_max_str_digits] digits, 4300 unless configured, with a
    [ValueError]. *)
Definition int_max_str_digits : nat := 4300.

Definition str_digits_ok (n : Z) : bool :=
  (String.length (str_of_Z (Z.abs n)) <=? int_max_str_digits)%nat.

(** [calculate_improvement]: the subtraction is defined on numbers (a
    [bool] counts as 0 or 1) and raises [TypeError] on anything else; the
    conversion of an integer difference to text raises [ValueError] beyond
    the digit limit. *)
Definition calculate_improvement (current_score : pyval) (team : string) : option string :=
  let previous_avg := 70%Z in
  match current_score with
  | JInt z =>
      let diff := (z - previous_avg)%Z in
      if str_digits_ok diff then Some (signed_text diff) else None
  | JBool b => Some (signed_text (Z.b2z b - previous_avg))
  | JFloat f =>
      let diff := float_sub_int f previous_avg in
      Some (if float_gt_zero diff then String.append "+" (float_str diff)
            else float_str diff)
  | _ => None
  end.

Fixpoint chars (s : string) : list string :=
  match s with
  | EmptyString => []
  | String c rest => String c EmptyString :: chars rest
  end.

(** What a [for] loop draws from a value; [None] is the [TypeError] of a
    value that cannot be iterated. *)
Definition py_iter (v : pyval) : option (list pyval) :=
  match v with
  | JList items => Some items
  | JDict items => Some (map (fun kv => JStr (fst kv)) items)
  | JStr s => Some (map JStr (chars s))
  | _ => None
  end.

(** [Issue(id=idx, severity=issue.get('severity', 'low'), ...)] *)
Definition make_issue (idx : Z) (issue : pyval) : option Issue :=
  v_severity <- py_get issue "severity" (JStr "low") ;;
  v_title <- py_get issue "title" (JStr "Unknown Issue") ;;
  v_description <- py_get issue "description" (JStr "") ;;
  v_line <- py_get issue "line" (JInt 1) ;;
  v_impact <- py_get issue "impact" (JStr "Low") ;;
  v_fix_time <- py_get issue "fix_time" (JStr "10 min") ;;
  v_business <- py_get issue "business_impact" (JStr "Minor impact") ;;
  v_suggestion <- py_get issue "suggestion" (JStr "Review and fix") ;;
  v_auto <- py_get issue "auto_fix_available" (JBool false) ;;
  a_severity <- validate_str v_severity ;;
  a_title <- validate_str v_title ;;
  a_description <- validate_str v_description ;;
  a_line <- validate_int v_line ;;
  a_impact <- validate_str v_impact ;;
  a_fix_time <- validate_str v_fix_time ;;
  a_business <- validate_str v_business ;;
  a_suggestion <- validate_str v_suggestion ;;
  a_auto <- validate_bool v_auto ;;
  Some {| issue_id := idx; severity := a_severity; title := a_title;
          description := a_description; line := a_line; impact := a_impact;
          fix_time := a_fix_time; business_impact := a_business;
          suggestion := a_suggestion; auto_fix_available := a_auto;
          code_snippet := None |}.

(** The loop [for idx, issue in enumerate(..., 1)], entered with the next
    index [idx]. *)
Fixpoint format_issues (idx : Z) (items : list pyval) : option (list Issue) :=
  match items with
  | [] => Some []
  | issue :: rest =>
      made <- make_issue idx issue ;;
      others <- format_issues (idx + 1) rest ;;
      Some (made :: others)
  end.

Definition default_metrics : pyval :=
  JDict [("complexity", JStr "Medium");
         ("maintainability", JStr "Good");
         ("security", JStr "Good");
         ("performance", JStr "Good")].

Definition default_insights : pyval :=
  JList [JStr "Code follows team conventions";
         JStr "Consider adding more test coverage"].

(** The body of [review_code] from "Format issues" to the construction of
    the [ReviewResponse]; [now_id] and [now_iso] are the two readings of the
    clock, already formatted. *)
Definition assemble_review (llm_result : pyval) (request : CodeReviewRequest)
    (now_id now_iso : string) : option ReviewResponse :=
  v_issues <- py_get llm_result "issues" (JList []) ;;
  items <- py_iter v_issues ;;
  issues <- format_issues 1 items ;;
  v_score <- py_get llm_result "score" (JInt 75) ;;
  a_improvement <- calculate_improvement v_score (team_id request) ;;
  v_metrics <- py_get llm_result "metrics" default_metrics ;;
  v_insights <- py_get llm_result "team_insights" default_insights ;;
  a_score <- validate_int v_score ;;
  a_metrics <- validate_str_dict v_metrics ;;
  a_insights <- validate_str_list v_insights ;;
  Some {| review_id := String.append "review_" now_id; score := a_score;
          improvement := a_improvement; priority := issues;
          metrics := a_metrics; team_insights := a_insights;
          timestamp := now_iso |}.

(** ** Review store *)

(** [reviews_db]: a dictionary, so its items stay in insertion order. *)
Definition reviews_db : Type := list (string * ReviewResponse).

(** [db[key] = value]: a key already present keeps its place. *)
Fixpoint dict_set {B : Type} (key : string) (value : B) (db : list (string * B))
    : list (string * B) :=
  match db with
  | [] => [(key, value)]
  | (k, v) :: rest =>
      if String.eqb key k then (k, value) :: rest
      else (k, v) :: dict_set key value rest
  end.

Fixpoint dict_del {B : Type} (key : string) (db : list (string * B))
    : list (string * B) :=
  match db with
  | [] => []
  | (k, v) :: rest =>
      if String.eqb key k then rest else (k, v) :: dict_del key rest
  end.

(** [review_code]: the response and the store after the request. Every
    exception of the body becomes status 500 and leaves the store as it
    was. The review returned is a validated [ReviewResponse], which the
    framework serializes as it is; the update of the team context runs
    after the response and does not touch it. *)
Definition review_code (reply : llm_outcome) (request : CodeReviewRequest)
    (now_id now_iso : string) (db : reviews_db)
    : http_result ReviewResponse * reviews_db :=
  let llm_result := generate_llm_review reply (code request) (language request) in
  match assemble_review llm_result request now_id now_iso with
  | Some review => (Ok review, dict_set (review_id review) review db)
  | None => (HttpError 500, db)
  end.

Definition get_review (rid : string) (db : reviews_db) : http_result ReviewResponse :=
  match assoc rid db with
  | Some review => Ok review
  | None => HttpError 404
  end.

Definition delete_review (rid : string) (db : reviews_db) : http_result unit * reviews_db :=
  match assoc rid db with
  | Some _ => (Ok tt, dict_del rid db)
  | None => (HttpError 404, db)
  end.

(** [l[start:]] *)
Definition slice_from {B : Type} (start : Z) (l : list B) : list B :=
  let len := Z.of_nat (List.length l) in
  let first := if (start <? 0)%Z then Z.max 0 (len + start) else start in
  skipn (Z.to_nat first) l.

Record review_listing : Type := {
  total : Z;
  reviews : list ReviewResponse
}.

(** [list_reviews]: [list(reviews_db.values())[-limit:]] and [len(reviews_db)]. *)
Definition list_reviews (limit : Z) (team : string) (db : reviews_db) : review_listing :=
  {| total := Z.of_nat (List.length db);
     reviews := slice_from (- limit) (map snd db) |}.

End Pipeline.

(** ** Vocabulary of the statements *)

(** ["\n".join(lines)] *)
Fixpoint join_lines (lines : list string) : string :=
  match lines with
  | [] => EmptyString
  | [l] => l
  | l :: rest => l ++ String newline (join_lines rest)
  end.

(** [v[key]] when [v] is a dictionary that has the key. *)
Definition py_field `{PyFloat} (v : pyval) (key : string) : option pyval :=
  match v with
  | JDict items => assoc key items
  | _ => None
  end.

(** The issue list a payload carries under ["issues"]. *)
Definition payload_issues `{PyFloat} (payload : pyval) : list pyval :=
  match py_field payload "issues" with
  | Some (JList items) => items
  | _ => []
  end.

(** [iss] is an issue of the class named [name] reported for line [n]
    (1-based). *)
Definition reports `{PyFloat} (name : string) (n : nat) (iss : pyval) : Prop :=
  py_field iss "title" = Some (JStr name)
  /\ py_field iss "line" = Some (JInt (Z.of_nat n)).

(** [x] is a dictionary of the shape the fallback analyzer appends. *)
Definition is_issue_dict `{PyFloat} (x : pyval) : Prop :=
  exists sev name descr n imp ft bi sugg auto,
    x = issue_dict sev name descr n imp ft bi sugg auto.

(** The issues the scan has appended before it reaches the line of index
    [i] (0-based, so before line number [i + 1]). *)
Definition issues_before `{PyFloat} (lines : list string) (i : nat) : list pyval :=
  flat_map (fun '(j, l) => line_issues lines j l) (firstn i (enumerate1 lines)).

(** Some line among the 20 lines after line number [n] contains [except]. *)
Definition handler_within (lines : list string) (n : nat) : Prop :=
  exists k l, 1 <= k <= 20
              /\ nth_error lines (n - 1 + k) = Some l
              /\ contains "except" l = true.

(** A line in a loop-control context, read from the claim's words: it holds
    the keyword [for] or [while] as a whole word. *)
Definition loop_control_line (l : string) : bool :=
  re_found (seqs [WordB; Alt (lit "for") (lit "while"); WordB]) l.

(** The ratings the data model of the specification lists for a metric. *)
Definition spec_ratings : list string :=
  ["Excellent"; "Good"; "Medium"; "Poor"; "Needs Review"].

(** The value a dictionary has under [key], or [default] when it has none. *)
Definition field_or `{PyFloat} (fields : list (string * pyval)) (key : string)
    (default : pyval) : pyval :=
  match assoc key fields with
  | Some v => v
  | None => default
  end.

(** [iss] is the issue the payload item [item] describes: the item is a
    dictionary, and each field of [iss] is what the field's validator makes
    of the item's entry, or of the documented default where the item has no
    such entry. *)
Definition issue_from `{Validators} (item : pyval) (iss : Issue) : Prop :=
  exists fields,
    item = JDict fields
    /\ validate_str (field_or fields "severity" (JStr "low")) = Some (severity iss)
    /\ validate_str (field_or fields "title" (JStr "Unknown Issue")) = Some (title iss)
    /\ validate_str (field_or fields "description" (JStr "")) = Some (description iss)
    /\ validate_int (field_or fields "line" (JInt 1)) = Some (line iss)
    /\ validate_str (field_or fields "impact" (JStr "Low")) = Some (impact iss)
    /\ validate_str (field_or fields "fix_time" (JStr "10 min")) = Some (fix_time iss)
    /\ validate_str (field_or fields "business_impact" (JStr "Minor impact"))
       = Some (business_impact iss)
    /\ validate_str (field_or fields "suggestion" (JStr "Review and fix"))
       = Some (suggestion iss)
    /\ validate_bool (field_or fields "auto_fix_available" (JBool false))
       = Some (auto_fix_available iss).

(** The ratings the fallback analyzer writes. *)
Definition fallback_ratings : list string :=
  ["Medium"; "High"; "Good"; "Needs Review"].

(** The character [34], which a string literal cannot hold. *)
Definition dquote : string := String (ascii_of_nat 34) EmptyString.

(** The JSON text [{"score": 150}] and a reply of the completion service
    that holds it after some commentary. *)
Definition score_object_text : string :=
  "{" ++ dquote ++ "score" ++ dquote ++ ": 150}".

Definition score_reply_text : string := "Review: " ++ score_object_text.

(** The JSON text [{"metrics": {"complexity": "Terrible"}}]. *)
Definition odd_metrics_text : string :=
  "{" ++ dquote ++ "metrics" ++ dquote ++ ": {" ++ dquote ++ "complexity" ++ dquote
  ++ ": " ++ dquote ++ "Terrible" ++ dquote ++ "}}".

(** A decoder known on finitely many texts, for running the pipeline on a
    given reply: it answers as [json.loads] does on the texts of its table. *)
Definition table_decoder `{PyFloat} (table : list (string * pyval))
    : string -> option pyval :=
  fun text => assoc text table.

(** A request as the API's client sends it, the optional fields at their
    defaults. *)
Definition request_for (text tag : string) : CodeReviewRequest :=
  {| code := text; language := tag; filename := "untitled"; team_id := "default" |}.

(** Code inputs the statements below run the analyzer on. *)
Definition eleven_todo_lines : string := join_lines (repeat "# TODO" 11).

Definition try_after_ten_todos : string :=
  join_lines (repeat "# TODO" 10 ++ ["try:"; "    run()"]).

Definition assignment_after_ten_todos : string :=
  join_lines (repeat "# TODO" 10 ++ ["x = 1"]).

Definition todo_then_def : string :=
  join_lines ["# TODO: Fix this"; "def test(): pass"].

Definition try_without_handler : string := join_lines ["try:"; "    run()"].

Definition try_with_handler : string :=
  join_lines ["try:"; "    print(1)"; "except Exception:"; "    pass"].

Definition deeply_indented : string := "                    pass".

(** ** Language detector

    [str.lower()] on the 256 code points: the letters A-Z and the upper-case
    letters of the upper half move 32 places up, every other character is
    its own lower case. *)
Definition lower_char (c : ascii) : ascii :=
  if in_range 65 90 c || in_range 192 214 c || in_range 216 222 c
  then ascii_of_N (code_point c + 32)
  else c.

Fixpoint py_lower (s : string) : string :=
  match s with
  | EmptyString => EmptyString
  | String c rest => String (lower_char c) (py_lower rest)
  end.

Definition ext_map : list (string * string) :=
  [(".py", "python"); (".js", "javascript"); (".jsx", "javascript");
   (".ts", "typescript"); (".tsx", "typescript"); (".java", "java");
   (".cpp", "cpp"); (".c", "c"); (".go", "go"); (".rb", "ruby");
   (".php", "php"); (".cs", "csharp"); (".swift", "swift")].

(** [detect_language]; [path_suffix] is [Path(filename).suffix] of the
    path library. *)
Definition detect_language (path_suffix : string -> string)
    (name text : string) : string :=
  let ext := py_lower (path_suffix name) in
  match assoc ext ext_map with
  | Some tag => tag
  | None =>
      if contains "def " text && contains "import " text then "python"
      else if contains "function " text || contains "const " text then "javascript"
      else "unknown"
  end.

(** ** Team context aggregator

    [team_context_db] keeps its four keys for the life of the process, so
    it is a record; [common_issues] is the dictionary of counters. *)
Record team_context : Type := {
  reviews_count : Z;
  common_patterns : list string;
  common_issues : list (string * Z);
  team_preferences : list (string * string)
}.

Definition initial_team_context : team_context :=
  {| reviews_count := 0; common_patterns := []; common_issues := [];
     team_preferences := [] |}.

(** One turn of the loop of [update_team_context]; [None] is the
    [KeyError] of reading a counter that is not there. *)
Definition count_issue (counters : list (string * Z)) (issue : Issue)
    : option (list (string * Z)) :=
  let issue_type := py_lower (title issue) in
  let counters1 :=
    match assoc issue_type counters with
    | Some _ => counters
    | None => dict_set issue_type 0%Z counters
    end in
  match assoc issue_type counters1 with
  | Some n => Some (dict_set issue_type (n + 1)%Z counters1)
  | None => None
  end.

Fixpoint count_issues (counters : list (string * Z)) (issues : list Issue)
    : option (list (string * Z)) :=
  match issues with
  | [] => Some counters
  | issue :: rest =>
      bind (count_issue counters issue) (fun counters' => count_issues counters' rest)
  end.

Definition update_team_context (team : string) (review : ReviewResponse)
    (ctx : team_context) : option team_context :=
  bind (count_issues (common_issues ctx) (priority review))
       (fun counters =>
          Some {| reviews_count := reviews_count ctx + 1;
                  common_patterns := common_patterns ctx;
                  common_issues := counters;
                  team_preferences := team_preferences ctx |}).

(** The updates of a run of completed reviews, oldest first. *)
Fixpoint update_all (team : string) (done : list ReviewResponse)
    (ctx : team_context) : option team_context :=
  match done with
  | [] => Some ctx
  | review :: rest =>
      bind (update_team_context team review ctx) (update_all team rest)
  end.

Record insights_response : Type := {
  insights_team_id : string;
  insights_total_reviews : Z;
  insights_average_score : Z;
  insights_improvement : string;
  insights_common_patterns : list string;
  insights_common_issues : list (string * Z);
  insights_top_improvements : list string
}.

(** [get_team_insights]; the key [common_patterns] is always present, so
    [.get] never takes its default. *)
Definition get_team_insights (team : string) (ctx : team_context) : insights_response :=
  {| insights_team_id := team;
     insights_total_reviews := reviews_count ctx;
     insights_average_score := 78;
     insights_improvement := "+5";
     insights_common_patterns := common_patterns ctx;
     insights_common_issues :=
       [("missing_error_handling", 12%Z); ("inefficient_queries", 8%Z);
        ("poor_naming", 15%Z); ("missing_tests", 6%Z)];
     insights_top_improvements :=
       ["Added error handling in 23 functions";
        "Optimized 15 database queries";
        "Improved test coverage by 18%"] |}.

(** ** Chat endpoint *)

Definition fallback_responses : list (string * string) :=
  [("why is this slow",
    "I see potential performance issues. Look for nested loops, repeated database queries, or inefficient algorithms. Consider using caching or optimizing data structures.");
   ("explain this",
    "This code appears to process data. To give you a detailed explanation, I'd need to analyze the specific logic and data flow.");
   ("how to fix",
    "To fix this, consider: 1) Refactoring complex functions, 2) Adding error handling, 3) Optimizing loops and queries, 4) Adding input validation.")].

Definition generic_response : string :=
  "I can help explain code, suggest improvements, or answer questions. Try asking specific questions about performance, bugs, or best practices.".

Record chat_response : Type := {
  response : string;
  chat_timestamp : string
}.

(** [chat_with_code]: the answer of the service, or on any exception of
    the [try] block the canned answer for the lower-cased message. *)
Definition chat_with_code (reply : llm_outcome) (message now_iso : string)
    : chat_response :=
  match reply with
  | LLMContent answer => {| response := answer; chat_timestamp := now_iso |}
  | LLMRaises =>
      {| response :=
           match assoc (py_lower message) fallback_responses with
           | Some answer => answer
           | None => generic_response
           end;
         chat_timestamp := now_iso |}
  end.

(** ** Health check *)

Record health_response : Type := {
  health_status : string;
  health_timestamp : string;
  health_total_reviews : Z
}.

Definition health_check (now_iso : string) (db : reviews_db) : health_response :=
  {| health_status := "healthy";
     health_timestamp := now_iso;
     health_total_reviews := Z.of_nat (List.length db) |}.

(** ** More vocabulary *)

(** [c in s] for a character. *)
Fixpoint has_char (c : ascii) (s : string) : bool :=
  match s with
  | EmptyString => false
  | String x rest => Ascii.eqb c x || has_char c rest
  end.

(** What follows the last [c] of [s], when [s] holds one. *)
Fixpoint after_last (c : ascii) (s : string) : option string :=
  match s with
  | EmptyString => None
  | String x rest =>
      match after_last c rest with
      | Some t => Some t
      | None => if Ascii.eqb c x then Some rest else None
      end
  end.

(** The text from the first opening brace that has a closing brace after it
    to the last closing brace. *)
Fixpoint json_span (s : string) : option string :=
  match s with
  | EmptyString => None
  | String c rest =>
      if Ascii.eqb "{"%char c then
        match after_last "}"%char rest with
        | Some t => Some (substring 0 (length s - length t) s)
        | None => json_span rest
        end
      else json_span rest
  end.

(** [isinstance(v, (bool, int, float))]: what the subtraction of
    [calculate_improvement] accepts. *)
Definition is_number `{PyFloat} (v : pyval) : bool :=
  match v with
  | JInt _ | JBool _ | JFloat _ => true
  | _ => false
  end.

Definition is_dict `{PyFloat} (v : pyval) : bool :=
  match v with
  | JDict _ => true
  | _ => false
  end.

(** [d.get(key, 0)] on a dictionary of counters. *)
Definition counter (key : string) (counters : list (string * Z)) : Z :=
  match assoc key counters with
  | Some n => n
  | None => 0%Z
  end.

(** How many of the issues have a title that is [key] once lower-cased. *)
Definition titled (key : string) (issues : list Issue) : nat :=
  List.length (filter (fun issue => String.eqb (py_lower (title issue)) key) issues).

(** The shape [common_issues] keeps: distinct lower-case keys, counters of
    at least 1. *)
Definition counters_ok (counters : list (string * Z)) : Prop :=
  NoDup (map fst counters)
  /\ Forall (fun kv => py_lower (fst kv) = fst kv /\ (1 <= snd kv)%Z) counters.

(** A review with one issue per given title, and a store that holds one
    review, for running the store and the aggregator. *)
Definition issue_titled (name : string) : Issue :=
  {| issue_id := 1; severity := "low"; title := name; description := "";
     line := 1; impact := "Low"; fix_time := "10 min";
     business_impact := "Minor impact"; suggestion := "Review and fix";
     auto_fix_available := false; code_snippet := None |}.

Definition review_titled (rid : string) (names : list string) : ReviewResponse :=
  {| review_id := rid; score := 75; improvement := "+5";
     priority := map issue_titled names; metrics := []; team_insights := [];
     timestamp := "2024-01-01T00:00:00" |}.

Definition one_review_store : reviews_db :=
  [("review_20240101_000000", review_titled "review_20240101_000000" ["Leak"])].

(** The JSON text [{"score": null}]. *)
Definition null_score_text : string :=
  "{" ++ dquote ++ "score" ++ dquote ++ ": null}".

(** The line number an issue dictionary carries. *)
Definition issue_line `{PyFloat} (iss : pyval) : Z :=
  match py_field iss "line" with
  | Some (JInt n) => n
  | _ => 0%Z
  end.

(** * Properties *)

(** ** Lists and enumeration *)

Lemma nth_error_enumerate1 {B : Type} (l : list B) (i : nat) :
  nth_error (enumerate1 l) i = option_map (fun x => (S i, x)) (nth_error l i).
Proof.
  unfold enumerate1.
  enough (G : forall a, nth_error (combine (seq a (List.length l)) l) i
                        = option_map (fun x => (a + i, x)) (nth_error l i))
    by (rewrite (G 1); reflexivity).
  revert i; induction l as [|x l IH]; intros i a.
  - destruct i; reflexivity.
  - destruct i as [|i]; simpl.
    + now rewrite Nat.add_0_r.
    + rewrite IH. destruct (nth_error l i); simpl; [|reflexivity].
      now rewrite Nat.add_succ_r.
Qed.

Lemma split_at_nth_error {B : Type} (l : list B) (i : nat) (x : B) :
  nth_error l i = Some x -> l = firstn i l ++ x :: skipn (S i) l.
Proof.
  revert i; induction l as [|y l IH]; intros [|i] E; simpl in *; try discriminate.
  - now injection E as ->.
  - f_equal. now apply IH.
Qed.

Lemma in_firstn_middle {B : Type} (n : nat) (pre post : list B) (x : B) :
  List.length pre < n -> In x (firstn n (pre ++ x :: post)).
Proof.
  intros Hlt. rewrite firstn_app.
  apply in_or_app; right.
  destruct (n - List.length pre) as [|m] eqn:E; [lia|].
  simpl; now left.
Qed.

Lemma in_firstn_in {B : Type} (n : nat) (l : list B) (x : B) :
  In x (firstn n l) -> In x l.
Proof.
  intros Hin. rewrite <- (firstn_skipn n l). apply in_or_app; now left.
Qed.

(** ** The scan of the fallback analyzer *)

Section FallbackFacts.
Context `{PyFloat}.

Lemma fallback_payload_issues (code language : string) :
  payload_issues (generate_fallback_review code language)
  = firstn 10 (scan_issues code).
Proof. reflexivity. Qed.

(** The scan, cut at a line: what came before, the line's own issues, the
    rest. *)
Lemma scan_issues_split (code : string) (i : nat) (l : string) :
  nth_error (split_lines code) i = Some l ->
  exists post,
    scan_issues code
    = issues_before (split_lines code) i
      ++ line_issues (split_lines code) (S i) l ++ post.
Proof.
  intros E. unfold scan_issues, issues_before.
  set (lines := split_lines code) in *.
  assert (E' : nth_error (enumerate1 lines) i = Some (S i, l))
    by (rewrite nth_error_enumerate1, E; reflexivity).
  set (f := fun '(j, l0) => line_issues lines j l0).
  exists (flat_map f (skipn (S i) (enumerate1 lines))).
  transitivity (flat_map f (firstn i (enumerate1 lines)
                            ++ (S i, l) :: skipn (S i) (enumerate1 lines))).
  - f_equal. now apply split_at_nth_error.
  - rewrite flat_map_app. reflexivity.
Qed.

(** Every issue of the scan was appended at some line. *)
Lemma scan_issues_origin (code : string) (iss : pyval) :
  In iss (scan_issues code) ->
  exists i l, nth_error (split_lines code) i = Some l
              /\ In iss (line_issues (split_lines code) (S i) l).
Proof.
  unfold scan_issues. set (lines := split_lines code).
  intros Hin. apply in_flat_map in Hin as [[j l] [Hjl Hiss]].
  apply In_nth_error in Hjl as [i Hi].
  rewrite nth_error_enumerate1 in Hi.
  destruct (nth_error lines i) as [l'|] eqn:E; simpl in Hi; [|discriminate].
  injection Hi as <- <-.
  now exists i, l'.
Qed.

Lemma line_issues_cases (lines : list string) (n : nat) (l : string) (iss : pyval) :
  In iss (line_issues lines n l) ->
  (has_todo l = true /\ iss = todo_issue n)
  \/ (has_debug l = true /\ iss = debug_issue n)
  \/ (has_short_var l = true /\ iss = short_var_issue n)
  \/ (contains "try:" l = true /\ has_except lines n = false /\ iss = try_issue n).
Proof.
  unfold line_issues, todo_part, debug_part, short_var_part, try_part.
  intros Hin.
  repeat (apply in_app_or in Hin as [Hin|Hin]).
  - destruct (has_todo l); [|contradiction].
    destruct Hin as [<-|[]]. now left.
  - destruct (has_debug l); [|contradiction].
    destruct Hin as [<-|[]]. right; now left.
  - destruct (has_short_var l); [|contradiction].
    destruct Hin as [<-|[]]. right; right; now left.
  - destruct (contains "try:" l); [|contradiction].
    destruct (has_except lines n); simpl in Hin; [contradiction|].
    destruct Hin as [<-|[]]. right; right; right. now repeat split.
Qed.

(** The inner loop reads [lines[j]] only at indices that exist. *)
Lemma has_except_in_bounds (lines : list string) (n j : nat) :
  In j (seq n (Nat.min (n + 20) (List.length lines) - n)) ->
  j < List.length lines.
Proof. rewrite in_seq. lia. Qed.

(** The inner loop finds a handler exactly when one of the next 20 lines
    contains [except]. *)
Lemma has_except_iff (lines : list string) (n : nat) :
  1 <= n -> (has_except lines n = true <-> handler_within lines n).
Proof.
  intros Hn. unfold has_except, handler_within. rewrite existsb_exists. split.
  - intros [j [Hj Hc]]. pose proof (has_except_in_bounds _ _ _ Hj) as Hlen.
    apply in_seq in Hj.
    exists (j - n + 1), (nth j lines ""). split; [lia|]. split; [|exact Hc].
    replace (n - 1 + (j - n + 1)) with j by lia.
    now apply nth_error_nth'.
  - intros [k [l [Hk [Hl Hc]]]].
    exists (n - 1 + k). split.
    + apply in_seq.
      assert (n - 1 + k < List.length lines)
        by (apply nth_error_Some; rewrite Hl; discriminate).
      lia.
    + now rewrite (nth_error_nth _ _ _ Hl).
Qed.

(** The fields of the four kinds of issue. *)
Lemma issue_dict_reports (sev name descr : string) (n : nat)
    (imp ft bi sugg : string) (auto : bool) (name' : string) (m : nat) :
  reports name' m (issue_dict sev name descr n imp ft bi sugg auto) ->
  name' = name /\ m = n.
Proof.
  unfold reports, issue_dict, py_field. simpl.
  intros [Ht Hl]. injection Ht as <-. injection Hl as Hl.
  split; [reflexivity|lia].
Qed.

(** An issue of the returned list that reports a class for a line was
    appended by the check of that class at that line. *)
Lemma reported_origin (code : string) (name : string) (i : nat) (l : string)
    (iss : pyval) :
  nth_error (split_lines code) i = Some l ->
  In iss (firstn 10 (scan_issues code)) ->
  reports name (S i) iss ->
  In iss (line_issues (split_lines code) (S i) l).
Proof.
  intros E Hin Hrep.
  apply in_firstn_in, scan_issues_origin in Hin as [j [l' [E' Hin]]].
  assert (j = i) as ->.
  { apply line_issues_cases in Hin as [[_ ->]|[[_ ->]|[[_ ->]|[_ [_ ->]]]]];
      apply issue_dict_reports in Hrep as [_ Hrep]; lia. }
  now replace l with l' by congruence.
Qed.

(** An issue appended at a line survives the cut to ten when fewer than ten
    issues precede it in the scan. *)
Lemma in_returned (code : string) (i : nat) (l : string)
    (pre rest : list pyval) (x : pyval) :
  nth_error (split_lines code) i = Some l ->
  line_issues (split_lines code) (S i) l = pre ++ x :: rest ->
  List.length (issues_before (split_lines code) i ++ pre) < 10 ->
  In x (firstn 10 (scan_issues code)).
Proof.
  intros E Hshape Hroom.
  destruct (scan_issues_split code i l E) as [post ->].
  rewrite Hshape.
  replace (issues_before (split_lines code) i ++ (pre ++ x :: rest) ++ post)
    with ((issues_before (split_lines code) i ++ pre) ++ x :: (rest ++ post)).
  - now apply in_firstn_middle.
  - rewrite <- !app_assoc. reflexivity.
Qed.

End FallbackFacts.

(** ** Claims about the fallback analyzer *)

Section FallbackClaims.
Context `{PyFloat}.

(** C3, as the code has it: for the empty text the fallback analyzer returns
    score 100 (the complexity score is 0 and the score is
    [max(50, 100 - 0)]), an empty issue list and the complexity rating
    "Medium", whatever the language tag. *)
Theorem fallback_empty_code (language : string) :
  py_field (generate_fallback_review "" language) "score" = Some (JInt 100)
  /\ py_field (generate_fallback_review "" language) "issues" = Some (JList [])
  /\ (exists m, py_field (generate_fallback_review "" language) "metrics" = Some m
                /\ py_field m "complexity" = Some (JStr "Medium"))
  /\ complexity_score (analyze_code_complexity "") = 0%Z.
Proof.
  split; [reflexivity|]. split; [reflexivity|]. split; [|reflexivity].
  eexists; split; reflexivity.
Qed.

(** C5, amended by the cut to ten issues: a line containing TODO or FIXME
    yields a low-severity "Unresolved TODO/FIXME" issue carrying the line's
    1-based number in the returned issue list, provided fewer than ten
    issues were appended for the lines before it. *)
Theorem todo_line_reported (code language : string) (i : nat) (l : string) :
  nth_error (split_lines code) i = Some l ->
  contains "TODO" l || contains "FIXME" l = true ->
  List.length (issues_before (split_lines code) i) < 10 ->
  exists iss,
    In iss (payload_issues (generate_fallback_review code language))
    /\ reports "Unresolved TODO/FIXME" (S i) iss
    /\ py_field iss "severity" = Some (JStr "low").
Proof.
  intros E Htodo Hroom. exists (todo_issue (S i)).
  split; [|split; [split|]; reflexivity].
  rewrite fallback_payload_issues.
  apply (in_returned code i l [] (debug_part (S i) l ++ short_var_part (S i) l
                                  ++ try_part (split_lines code) (S i) l)); trivial.
  - unfold line_issues, todo_part, has_todo. now rewrite Htodo.
  - now rewrite app_nil_r.
Qed.

(** C6, amended by the cut to ten issues: for a line containing [try:],
    (a) when none of the next 20 lines contains [except], and fewer than ten
    issues were appended before the check reaches it, the returned list has
    a medium-severity, auto-fixable "Incomplete Error Handling" issue for
    that line; (b) when one of the next 20 lines contains [except], the
    returned list has no such issue for that line. *)
Theorem try_block_reported (code language : string) (i : nat) (l : string) :
  nth_error (split_lines code) i = Some l ->
  contains "try:" l = true ->
  (~ handler_within (split_lines code) (S i) ->
   List.length (issues_before (split_lines code) i
                ++ todo_part (S i) l ++ debug_part (S i) l
                ++ short_var_part (S i) l) < 10 ->
   exists iss,
     In iss (payload_issues (generate_fallback_review code language))
     /\ reports "Incomplete Error Handling" (S i) iss
     /\ py_field iss "severity" = Some (JStr "medium")
     /\ py_field iss "auto_fix_available" = Some (JBool true))
  /\ (handler_within (split_lines code) (S i) ->
      forall iss,
        In iss (payload_issues (generate_fallback_review code language)) ->
        ~ reports "Incomplete Error Handling" (S i) iss).
Proof.
  intros E Htry. split.
  - intros Hnone Hroom. exists (try_issue (S i)).
    split; [|split; [split|split]; reflexivity].
    rewrite fallback_payload_issues.
    apply (in_returned code i l
             (todo_part (S i) l ++ debug_part (S i) l ++ short_var_part (S i) l)
             []); trivial.
    unfold line_issues, try_part. rewrite Htry.
    destruct (has_except (split_lines code) (S i)) eqn:Hex.
    + exfalso. apply Hnone. apply has_except_iff; [lia|exact Hex].
    + simpl. now rewrite <- !app_assoc.
  - intros Hhandler iss Hin Hrep.
    rewrite fallback_payload_issues in Hin.
    pose proof (reported_origin code _ i l iss E Hin Hrep) as Horigin.
    apply has_except_iff in Hhandler; [|lia].
    apply line_issues_cases in Horigin
      as [[_ ->]|[[_ ->]|[[_ ->]|[_ [Hex _]]]]];
      try (apply issue_dict_reports in Hrep as [Hname _]; discriminate).
    congruence.
Qed.

(** C9, amended to the test the code makes and by the cut to ten issues: a
    line in which a lowercase letter standing alone as a word start is
    followed, after optional white space, by [=], and which does not contain
    the text [for] anywhere, yields a low-severity "Non-descriptive Variable
    Name" issue for that line in the returned list, provided fewer than ten
    issues were appended before the check reaches it. *)
Theorem short_variable_reported (code language : string) (i : nat) (l : string) :
  nth_error (split_lines code) i = Some l ->
  re_found re_short_var l = true ->
  contains "for" l = false ->
  List.length (issues_before (split_lines code) i
               ++ todo_part (S i) l ++ debug_part (S i) l) < 10 ->
  exists iss,
    In iss (payload_issues (generate_fallback_review code language))
    /\ reports "Non-descriptive Variable Name" (S i) iss
    /\ py_field iss "severity" = Some (JStr "low").
Proof.
  intros E Hre Hfor Hroom. exists (short_var_issue (S i)).
  split; [|split; [split|]; reflexivity].
  rewrite fallback_payload_issues.
  apply (in_returned code i l (todo_part (S i) l ++ debug_part (S i) l)
           (try_part (split_lines code) (S i) l)); trivial.
  unfold line_issues, short_var_part, has_short_var. rewrite Hre, Hfor. simpl.
  now rewrite <- !app_assoc.
Qed.

(** C10: the TODO/FIXME check is case-sensitive. For every code input, a
    line that contains neither [TODO] nor [FIXME] in upper case (lower-case
    forms do not count) has no "Unresolved TODO/FIXME" issue in the returned
    list. *)
Theorem todo_check_case_sensitive (code language : string) (i : nat)
    (l : string) (iss : pyval) :
  nth_error (split_lines code) i = Some l ->
  contains "TODO" l = false ->
  contains "FIXME" l = false ->
  In iss (payload_issues (generate_fallback_review code language)) ->
  ~ reports "Unresolved TODO/FIXME" (S i) iss.
Proof.
  intros E Htodo Hfixme Hin Hrep.
  rewrite fallback_payload_issues in Hin.
  pose proof (reported_origin code _ i l iss E Hin Hrep) as Horigin.
  apply line_issues_cases in Horigin
    as [[Hhas _]|[[_ ->]|[[_ ->]|[_ [_ ->]]]]];
    try (apply issue_dict_reports in Hrep as [Hname _]; discriminate).
  unfold has_todo in Hhas. rewrite Htodo, Hfixme in Hhas. discriminate.
Qed.

End FallbackClaims.

(** ** The generative analyzer and the assembler *)

Section PipelineFacts.
Context `{V : Validators}.

Lemma bind_some {A B : Type} (m : option A) (f : A -> option B) (y : B) :
  bind m f = Some y -> exists x, m = Some x /\ f x = Some y.
Proof. destruct m as [x|]; simpl; [now exists x|discriminate]. Qed.

(** On a dictionary written by the fallback analyzer every field passes its
    validator. *)
Lemma make_issue_of_dict (idx : Z) (sev name descr : string) (n : nat)
    (imp ft bi sugg : string) (auto : bool) :
  make_issue idx (issue_dict sev name descr n imp ft bi sugg auto)
  = Some {| issue_id := idx; severity := sev; title := name;
            description := descr; line := Z.of_nat n; impact := imp;
            fix_time := ft; business_impact := bi; suggestion := sugg;
            auto_fix_available := auto; code_snippet := None |}.
Proof.
  unfold make_issue, issue_dict. cbn [py_get assoc String.eqb Ascii.eqb Bool.eqb bind].
  rewrite !validate_str_str, validate_int_int, validate_bool_bool.
  reflexivity.
Qed.

Lemma scan_issues_are_dicts (code : string) (x : pyval) :
  In x (scan_issues code) -> is_issue_dict x.
Proof.
  intros Hin. apply scan_issues_origin in Hin as [i [l [_ Hin]]].
  apply line_issues_cases in Hin as [[_ ->]|[[_ ->]|[[_ ->]|[_ [_ ->]]]]];
    unfold is_issue_dict, todo_issue, debug_issue, short_var_issue, try_issue;
    repeat eexists.
Qed.

Lemma format_issues_total (items : list pyval) :
  (forall x, In x items -> is_issue_dict x) ->
  forall idx, exists l, format_issues idx items = Some l.
Proof.
  induction items as [|x items IH]; intros Hall idx; simpl.
  - now exists [].
  - destruct (Hall x (or_introl eq_refl))
      as (sev & name & descr & n & imp & ft & bi & sugg & auto & ->).
    rewrite make_issue_of_dict. simpl.
    destruct (IH (fun y Hy => Hall y (or_intror Hy)) (idx + 1)%Z) as [l ->].
    simpl. eauto.
Qed.

(** The loop numbers the issues it builds from [idx] on, one by one, each
    built from the item at the same place. *)
Lemma format_issues_ids (items : list pyval) :
  forall idx l,
    format_issues idx items = Some l ->
    map issue_id l = map (fun k => (idx + Z.of_nat k)%Z) (seq 0 (List.length items))
    /\ Forall2 (fun item iss => make_issue (issue_id iss) item = Some iss) items l.
Proof.
  induction items as [|x items IH]; intros idx l Hl; simpl in Hl.
  - injection Hl as <-. split; [reflexivity|constructor].
  - apply bind_some in Hl as [made [Hmade Hl]].
    apply bind_some in Hl as [others [Hothers Hl]].
    injection Hl as <-.
    assert (Hid : issue_id made = idx).
    { unfold make_issue in Hmade.
      repeat (apply bind_some in Hmade as [? [_ Hmade]]).
      now injection Hmade as <-. }
    destruct (IH _ _ Hothers) as [Hids Hall]. split.
    + simpl. rewrite Hid, Z.add_0_r. f_equal.
      rewrite Hids, <- seq_shift, map_map.
      apply map_ext. intros k. lia.
    + constructor; [now rewrite Hid|exact Hall].
Qed.

Lemma py_get_field_or (fields : list (string * pyval)) (key : string)
    (default : pyval) :
  py_get (JDict fields) key default = Some (field_or fields key default).
Proof. unfold py_get, field_or. destruct (assoc key fields); reflexivity. Qed.

(** An issue the assembler builds is the issue its item describes, under
    the index of the loop. *)
Lemma make_issue_from (idx : Z) (item : pyval) (iss : Issue) :
  make_issue idx item = Some iss -> issue_from item iss /\ issue_id iss = idx.
Proof.
  destruct item as [| | | | |l|fields]; try discriminate.
  unfold make_issue. rewrite !py_get_field_or. cbn [bind]. intros Hmade.
  apply bind_some in Hmade as [a1 [H1 Hmade]].
  apply bind_some in Hmade as [a2 [H2 Hmade]].
  apply bind_some in Hmade as [a3 [H3 Hmade]].
  apply bind_some in Hmade as [a4 [H4 Hmade]].
  apply bind_some in Hmade as [a5 [H5 Hmade]].
  apply bind_some in Hmade as [a6 [H6 Hmade]].
  apply bind_some in Hmade as [a7 [H7 Hmade]].
  apply bind_some in Hmade as [a8 [H8 Hmade]].
  apply bind_some in Hmade as [a9 [H9 Hmade]].
  injection Hmade as <-. split; [|reflexivity].
  exists fields. cbn. now repeat split.
Qed.

Lemma format_issues_from (items : list pyval) :
  forall idx l,
    format_issues idx items = Some l ->
    Forall2 issue_from items l.
Proof.
  induction items as [|x items IH]; intros idx l Hl; simpl in Hl.
  - injection Hl as <-. constructor.
  - apply bind_some in Hl as [made [Hmade Hl]].
    apply bind_some in Hl as [others [Hothers Hl]].
    injection Hl as <-.
    constructor; [now apply (make_issue_from idx)|now apply (IH (idx + 1)%Z)].
Qed.

(** The items the loop of the assembler walks are the payload's own issue
    list whenever every item is a dictionary: a string or a dictionary under
    [issues] iterates to strings, so it can only be empty. *)
Lemma iterated_items (payload v : pyval) (items : list pyval) (l : list Issue) :
  py_get payload "issues" (JList []) = Some v ->
  py_iter v = Some items ->
  Forall2 issue_from items l ->
  items = payload_issues payload.
Proof.
  destruct payload as [| | | | |pl|fields]; try discriminate.
  rewrite py_get_field_or. intros Hv; injection Hv as <-.
  unfold payload_issues, py_field, field_or.
  destruct (assoc "issues" fields) as [[| | | |s|its|d]|]; simpl;
    try discriminate; intros Hit; injection Hit as <-; trivial.
  - destruct s as [|c s]; [reflexivity|]. simpl.
    intros Hall. inversion Hall as [|? ? ? ? [fs [Hfs _]]]. discriminate.
  - destruct d as [|[k w] d]; [reflexivity|]. simpl.
    intros Hall. inversion Hall as [|? ? ? ? [fs [Hfs _]]]. discriminate.
Qed.

(** The fallback conditions of the [try] block. *)
Lemma llm_attempt_none (json_loads : string -> option pyval) (reply : llm_outcome) :
  llm_attempt json_loads reply = None <->
  reply = LLMRaises
  \/ (exists content, reply = LLMContent content
                      /\ re_search re_json content = None)
  \/ (exists content text, reply = LLMContent content
                           /\ re_search re_json content = Some text
                           /\ json_loads text = None).
Proof.
  unfold llm_attempt. split.
  - destruct reply as [|content]; [now left|].
    destruct (re_search re_json content) as [text|] eqn:E; intros Hnone.
    + right; right. now exists content, text.
    + right; left. now exists content.
  - intros [->|[[content [-> ->]]|[content [text [-> [-> Hnone]]]]]];
      [reflexivity|reflexivity|exact Hnone].
Qed.

Lemma fallback_metrics_strs (code : string) :
  exists rating,
    In rating ["Medium"; "High"]
    /\ JDict (fallback_metrics code)
       = JDict (map (fun kv => (fst kv, JStr (snd kv)))
                    [("complexity", rating); ("maintainability", "Good");
                     ("security", "Needs Review"); ("performance", "Good")]).
Proof.
  unfold fallback_metrics.
  destruct (complexity_score (analyze_code_complexity code) <? 50)%Z;
    eexists; (split; [|reflexivity]); simpl; auto.
Qed.

Lemma nodup_metric_keys (rating : string) :
  NoDup (map fst [("complexity", rating); ("maintainability", "Good");
                  ("security", "Needs Review"); ("performance", "Good")]).
Proof.
  simpl. repeat constructor; simpl; intuition discriminate.
Qed.

(** Small differences are within the digit limit of the conversion. *)
Lemma str_digits_ok_small (n : Z) :
  (Z.abs n <= 100)%Z -> str_digits_ok n = true.
Proof.
  intros Hn. unfold str_digits_ok.
  replace (Z.abs n) with (Z.of_nat (Z.to_nat (Z.abs n))) by lia.
  assert (Hk : Z.to_nat (Z.abs n) <= 100) by lia.
  revert Hk. generalize (Z.to_nat (Z.abs n)). intros k Hk.
  do 101 (destruct k as [|k]; [reflexivity|]).
  lia.
Qed.

Lemma fallback_score_range (code0 : string) :
  (50 <= fallback_score code0 <= 100)%Z.
Proof.
  unfold fallback_score, analyze_code_complexity. simpl complexity_score.
  set (nest := fold_left _ _ _).
  assert (Hnest : (0 <= nest)%Z).
  { subst nest. generalize (split_lines code0). intros lines.
    enough (G : forall acc, (0 <= acc)%Z ->
              (0 <= fold_left (fun m l => Z.max m (indent_of l / 4)%Z) lines acc)%Z)
      by (apply G; lia).
    induction lines as [|l lines IH]; intros acc Hacc; simpl; [exact Hacc|].
    apply IH. lia. }
  lia.
Qed.

(** The assembler accepts every payload of the fallback analyzer. *)
Lemma assemble_fallback (code0 language0 : string) (request : CodeReviewRequest)
    (now_id now_iso : string) :
  exists r rating,
    assemble_review (generate_fallback_review code0 language0) request now_id now_iso
    = Some r
    /\ score r = fallback_score code0
    /\ In rating ["Medium"; "High"]
    /\ metrics r = [("complexity", rating); ("maintainability", "Good");
                    ("security", "Needs Review"); ("performance", "Good")].
Proof.
  destruct (format_issues_total (firstn 10 (scan_issues code0))
              (fun x Hx => scan_issues_are_dicts code0 x (in_firstn_in _ _ _ Hx)) 1%Z)
    as [issues Hissues].
  destruct (fallback_metrics_strs code0) as [rating [Hrating Hmetrics]].
  eexists; exists rating.
  unfold assemble_review, generate_fallback_review.
  cbn [py_get assoc String.eqb Ascii.eqb Bool.eqb bind py_iter calculate_improvement].
  rewrite Hissues. cbn [bind].
  rewrite str_digits_ok_small
    by (pose proof (fallback_score_range code0); lia).
  cbn [bind].
  rewrite validate_int_int. cbn [bind].
  rewrite Hmetrics, (validate_str_dict_strs _ (nodup_metric_keys rating)). cbn [bind].
  change (JList fallback_insights)
    with (JList (map JStr ["Consider adding more comments for complex logic";
                           "Follow consistent naming conventions";
                           "Add unit tests for critical functions"])).
  rewrite validate_str_list_strs. cbn [bind].
  repeat split; trivial.
Qed.

(** The metrics the assembler takes from a fallback payload, key by key. *)
Lemma assemble_fallback_metrics (code0 language0 : string)
    (request : CodeReviewRequest) (now_id now_iso : string) (r : ReviewResponse) :
  assemble_review (generate_fallback_review code0 language0) request now_id now_iso
  = Some r ->
  metrics r
  = [("complexity",
      if (complexity_score (analyze_code_complexity code0) <? 50)%Z
      then "Medium" else "High");
     ("maintainability", "Good");
     ("security", "Needs Review");
     ("performance", "Good")].
Proof.
  unfold assemble_review, generate_fallback_review.
  cbn [py_get assoc String.eqb Ascii.eqb Bool.eqb bind py_iter]. intros E.
  apply bind_some in E as [issues [_ E]].
  apply bind_some in E as [text [_ E]].
  apply bind_some in E as [a_score [_ E]].
  apply bind_some in E as [a_metrics [Hmetrics E]].
  apply bind_some in E as [a_insights [_ E]].
  injection E as <-. cbn [metrics].
  change (JDict (fallback_metrics code0))
    with (JDict (map (fun kv => (fst kv, JStr (snd kv)))
                     [("complexity",
                       if (complexity_score (analyze_code_complexity code0) <? 50)%Z
                       then "Medium" else "High");
                      ("maintainability", "Good");
                      ("security", "Needs Review");
                      ("performance", "Good")])) in Hmetrics.
  rewrite validate_str_dict_strs in Hmetrics by apply nodup_metric_keys.
  now injection Hmetrics.
Qed.

End PipelineFacts.

(** ** Claims about the pipeline *)

Section PipelineClaims.
Context `{V : Validators}.
Variable json_loads : string -> option pyval.

(** On the fallback path the request is always served, with the score and
    the metrics of the fallback analyzer. *)
Lemma review_code_fallback (reply : llm_outcome) (request : CodeReviewRequest)
    (now_id now_iso : string) (db : reviews_db) :
  llm_attempt json_loads reply = None ->
  exists r rating,
    fst (review_code json_loads reply request now_id now_iso db) = Ok r
    /\ score r = fallback_score (code request)
    /\ In rating ["Medium"; "High"]
    /\ metrics r = [("complexity", rating); ("maintainability", "Good");
                    ("security", "Needs Review"); ("performance", "Good")].
Proof.
  intros Hnone. unfold review_code, generate_llm_review. rewrite Hnone.
  destruct (assemble_fallback (code request) (language request) request now_id now_iso)
    as (r & rating & -> & Hscore & Hrating & Hmetrics).
  now exists r, rating.
Qed.

(** What the fallback path guarantees for the score: it lies in [50,100]. *)
Lemma fallback_path_score (reply : llm_outcome) (request : CodeReviewRequest)
    (now_id now_iso : string) (db : reviews_db) (r : ReviewResponse) :
  llm_attempt json_loads reply = None ->
  fst (review_code json_loads reply request now_id now_iso db) = Ok r ->
  (50 <= score r <= 100)%Z.
Proof.
  intros Hnone Hok.
  destruct (review_code_fallback reply request now_id now_iso db Hnone)
    as (r' & rating & Hok' & Hscore & _).
  rewrite Hok in Hok'. injection Hok' as <-.
  rewrite Hscore. apply fallback_score_range.
Qed.

(** On the generative path the score of the review is the payload's, as the
    validator of the [int] field returns it (75 when the payload has none). *)
Lemma generative_path_score (reply : llm_outcome) (request : CodeReviewRequest)
    (now_id now_iso : string) (db : reviews_db) (payload : pyval)
    (r : ReviewResponse) :
  llm_attempt json_loads reply = Some payload ->
  fst (review_code json_loads reply request now_id now_iso db) = Ok r ->
  bind (py_get payload "score" (JInt 75)) validate_int = Some (score r).
Proof.
  unfold review_code, generate_llm_review. intros ->.
  destruct (assemble_review payload request now_id now_iso) as [r'|] eqn:E;
    simpl; [|discriminate].
  intros Hok; injection Hok as ->.
  unfold assemble_review in E.
  apply bind_some in E as [vi [_ E]]. apply bind_some in E as [items [_ E]].
  apply bind_some in E as [issues [_ E]].
  apply bind_some in E as [vs [Hvs E]]. rewrite Hvs. simpl.
  apply bind_some in E as [? [_ E]]. apply bind_some in E as [? [_ E]].
  apply bind_some in E as [? [_ E]]. apply bind_some in E as [sc [Hsc E]].
  apply bind_some in E as [? [_ E]]. apply bind_some in E as [? [_ E]].
  injection E as <-. exact Hsc.
Qed.

(** C1, the generative path at a reply whose JSON object has score 150:
    the review is served with score 150, outside [0,100]. *)
Theorem generative_score_not_clamped (request : CodeReviewRequest)
    (now_id now_iso : string) (db : reviews_db) :
  json_loads score_object_text = Some (JDict [("score", JInt 150)]) ->
  exists r,
    fst (review_code json_loads (LLMContent score_reply_text)
                     request now_id now_iso db) = Ok r
    /\ score r = 150%Z
    /\ ~ (0 <= score r <= 100)%Z.
Proof.
  intros Hdecode.
  unfold review_code, generate_llm_review, llm_attempt.
  replace (re_search re_json score_reply_text) with (Some score_object_text)
    by (vm_compute; reflexivity).
  rewrite Hdecode. unfold assemble_review.
  cbn [py_get assoc String.eqb Ascii.eqb Bool.eqb bind py_iter format_issues
       calculate_improvement].
  rewrite str_digits_ok_small by (simpl; lia). cbn [bind].
  rewrite validate_int_int. cbn [bind].
  change default_metrics
    with (JDict (map (fun kv => (fst kv, JStr (snd kv)))
                     [("complexity", "Medium"); ("maintainability", "Good");
                      ("security", "Good"); ("performance", "Good")])).
  rewrite validate_str_dict_strs
    by (simpl; repeat constructor; simpl; intuition discriminate).
  change default_insights
    with (JList (map JStr ["Code follows team conventions";
                           "Consider adding more test coverage"])).
  rewrite validate_str_list_strs. cbn [bind fst].
  eexists. split; [reflexivity|]. simpl. split; [reflexivity|lia].
Qed.

(** C2: when the completion call raises, or the reply holds no
    brace-delimited text, or that text does not decode, the generative
    analyzer returns exactly what the fallback analyzer returns on the same
    code and language, and the request is served (no error status). *)
Theorem llm_failure_falls_back (reply : llm_outcome) (request : CodeReviewRequest)
    (now_id now_iso : string) (db : reviews_db) :
  reply = LLMRaises
  \/ (exists content, reply = LLMContent content
                      /\ re_search re_json content = None)
  \/ (exists content text, reply = LLMContent content
                           /\ re_search re_json content = Some text
                           /\ json_loads text = None) ->
  generate_llm_review json_loads reply (code request) (language request)
  = generate_fallback_review (code request) (language request)
  /\ exists r, fst (review_code json_loads reply request now_id now_iso db) = Ok r.
Proof.
  intros Hfail. apply llm_attempt_none in Hfail. split.
  - unfold generate_llm_review. now rewrite Hfail.
  - destruct (review_code_fallback reply request now_id now_iso db Hfail)
      as (r & _ & Hok & _).
    now exists r.
Qed.

(** C4: whenever the assembler returns a review, the priority list has one
    issue per item of the payload's own issue list (none when the payload
    has no list), in the payload's order: the ids are exactly 1..N for the N
    items, and the k-th issue carries the fields of the k-th item. *)
Theorem priority_ids_contiguous (reply : llm_outcome) (request : CodeReviewRequest)
    (now_id now_iso : string) (db : reviews_db) (r : ReviewResponse) :
  fst (review_code json_loads reply request now_id now_iso db) = Ok r ->
  map issue_id (priority r)
  = map Z.of_nat
        (seq 1 (List.length
                  (payload_issues
                     (generate_llm_review json_loads reply (code request)
                                          (language request)))))
  /\ Forall2 issue_from
       (payload_issues
          (generate_llm_review json_loads reply (code request) (language request)))
       (priority r).
Proof.
  unfold review_code.
  set (payload := generate_llm_review json_loads reply (code request) (language request)).
  destruct (assemble_review payload request now_id now_iso) as [r'|] eqn:E;
    simpl; [|discriminate].
  intros Hok; injection Hok as ->.
  unfold assemble_review in E.
  apply bind_some in E as [vi [Hvi E]]. apply bind_some in E as [items [Hitems E]].
  apply bind_some in E as [issues [Hissues E]].
  repeat (apply bind_some in E as [? [_ E]]).
  injection E as <-. simpl.
  pose proof (format_issues_from items _ _ Hissues) as Hfrom.
  rewrite <- (iterated_items payload vi items issues Hvi Hitems Hfrom).
  split; [|exact Hfrom].
  destruct (format_issues_ids items _ _ Hissues) as [Hids _].
  rewrite Hids, <- seq_shift, map_map.
  apply map_ext. intros k. lia.
Qed.

(** C8, as the code has it, path by path. On the fallback path the metrics
    of the review are complexity "Medium" when the complexity score of the
    code is below 50 and "High" from 50 on, maintainability "Good", security
    "Needs Review" and performance "Good", so every value is one of Medium,
    High, Good and Needs Review. On the generative path the metrics are the
    payload's own mapping as the validator of the field returns it, whatever
    strings it holds, and Medium/Good/Good/Good when the payload has none. *)
Theorem metrics_by_path (reply : llm_outcome) (request : CodeReviewRequest)
    (now_id now_iso : string) (db : reviews_db) (r : ReviewResponse) :
  fst (review_code json_loads reply request now_id now_iso db) = Ok r ->
  (llm_attempt json_loads reply = None ->
   metrics r
   = [("complexity",
       if (complexity_score (analyze_code_complexity (code request)) <? 50)%Z
       then "Medium" else "High");
      ("maintainability", "Good");
      ("security", "Needs Review");
      ("performance", "Good")]
   /\ forall k v, In (k, v) (metrics r) -> In v fallback_ratings)
  /\ (forall payload,
        llm_attempt json_loads reply = Some payload ->
        exists fields,
          payload = JDict fields
          /\ validate_str_dict
               (field_or fields "metrics"
                  (JDict [("complexity", JStr "Medium");
                          ("maintainability", JStr "Good");
                          ("security", JStr "Good");
                          ("performance", JStr "Good")]))
             = Some (metrics r)
          /\ (assoc "metrics" fields = None ->
              metrics r = [("complexity", "Medium"); ("maintainability", "Good");
                           ("security", "Good"); ("performance", "Good")])).
Proof.
  unfold review_code, generate_llm_review. intros Hok. split.
  - intros Hnone. rewrite Hnone in Hok.
    destruct (assemble_review _ request now_id now_iso) as [r'|] eqn:E;
      simpl in Hok; [|discriminate].
    injection Hok as ->.
    pose proof (assemble_fallback_metrics _ _ _ _ _ _ E) as Hmetrics.
    split; [exact Hmetrics|].
    intros k v Hin. rewrite Hmetrics in Hin. unfold fallback_ratings.
    destruct (complexity_score (analyze_code_complexity (code request)) <? 50)%Z;
      simpl in Hin |- *;
      destruct Hin as [E'|[E'|[E'|[E'|[]]]]]; injection E' as _ <-; tauto.
  - intros payload Hpayload. rewrite Hpayload in Hok.
    destruct (assemble_review payload request now_id now_iso) as [r'|] eqn:E;
      simpl in Hok; [|discriminate].
    injection Hok as ->.
    unfold assemble_review in E.
    destruct payload as [| | | | |pl|fields]; try discriminate.
    exists fields. split; [reflexivity|].
    rewrite !py_get_field_or in E. cbn [bind] in E.
    apply bind_some in E as [items [_ E]].
    apply bind_some in E as [issues [_ E]].
    apply bind_some in E as [text [_ E]].
    apply bind_some in E as [a_score [_ E]].
    apply bind_some in E as [a_metrics [Hmetrics E]].
    apply bind_some in E as [a_insights [_ E]].
    injection E as <-. cbn [metrics].
    split; [exact Hmetrics|].
    intros Habsent. unfold field_or in Hmetrics. rewrite Habsent in Hmetrics.
    change default_metrics
      with (JDict (map (fun kv => (fst kv, JStr (snd kv)))
                       [("complexity", "Medium"); ("maintainability", "Good");
                        ("security", "Good"); ("performance", "Good")]))
      in Hmetrics.
    rewrite validate_str_dict_strs in Hmetrics
      by (simpl; repeat constructor; simpl; intuition discriminate).
    now injection Hmetrics.
Qed.

End PipelineClaims.

(** ** The review store *)

Lemma slice_from_last {B : Type} (n : Z) (l : list B) :
  (1 <= n)%Z ->
  slice_from (- n) l = skipn (List.length l - Z.to_nat n) l.
Proof.
  intros Hn. unfold slice_from.
  replace (- n <? 0)%Z with true by (symmetry; apply Z.ltb_lt; lia).
  f_equal. lia.
Qed.

(** With a limit of at least 1 the listing holds the last [limit] values of
    the store, in insertion order, and the size of the whole store. *)
Lemma list_reviews_positive_limit (limit : Z) (team : string) (db : reviews_db) :
  (1 <= limit)%Z ->
  reviews (list_reviews limit team db)
  = skipn (List.length db - Z.to_nat limit) (map snd db)
  /\ (Z.of_nat (List.length (reviews (list_reviews limit team db))) <= limit)%Z
  /\ total (list_reviews limit team db) = Z.of_nat (List.length db).
Proof.
  intros Hlimit. unfold list_reviews. simpl.
  rewrite slice_from_last by exact Hlimit.
  rewrite length_map. split; [reflexivity|]. split; [|reflexivity].
  rewrite length_skipn, length_map. lia.
Qed.

(** C7 at limit 0: [-0] is [0], so the slice [[-limit:]] is the whole list.
    On a store that is not empty the listing holds every review, more than
    the limit of 0 allows; the total is the size of the store. *)
Theorem list_reviews_limit_zero (team key : string) (review : ReviewResponse)
    (db : reviews_db) :
  reviews (list_reviews 0 team ((key, review) :: db)) = review :: map snd db
  /\ ~ (Z.of_nat (List.length (reviews (list_reviews 0 team ((key, review) :: db)))) <= 0)%Z
  /\ total (list_reviews 0 team ((key, review) :: db)) = Z.of_nat (S (List.length db)).
Proof.
  unfold list_reviews, slice_from. simpl skipn. simpl reviews. simpl total.
  split; [reflexivity|]. split; [|reflexivity].
  simpl List.length. lia.
Qed.

(** ** The claims at concrete inputs *)

(** C3 as stated fails: the score for the empty text is not 50. *)
Lemma empty_code_score_is_not_50 :
  py_field (@generate_fallback_review no_floats "" "python") "score"
  <> Some (JInt 50).
Proof. vm_compute. discriminate. Qed.

(** C5 as stated fails: line 11 of eleven TODO lines contains the marker
    and has no issue in the returned list. *)
Lemma todo_line_dropped_by_cut :
  nth_error (split_lines eleven_todo_lines) 10 = Some "# TODO"
  /\ contains "TODO" "# TODO" = true
  /\ ~ exists iss,
        In iss (payload_issues
                  (@generate_fallback_review no_floats eleven_todo_lines "python"))
        /\ reports "Unresolved TODO/FIXME" 11 iss.
Proof.
  split; [reflexivity|]. split; [reflexivity|].
  intros [iss [Hin [_ Hline]]]. vm_compute in Hin.
  repeat (destruct Hin as [<-|Hin]; [vm_compute in Hline; discriminate|]).
  contradiction.
Qed.

(** C6 as stated fails: line 11 opens a [try:] block, no later line
    contains [except], and the returned list has no issue for line 11. *)
Lemma try_block_dropped_by_cut :
  nth_error (split_lines try_after_ten_todos) 10 = Some "try:"
  /\ contains "try:" "try:" = true
  /\ ~ handler_within (split_lines try_after_ten_todos) 11
  /\ ~ exists iss,
        In iss (payload_issues
                  (@generate_fallback_review no_floats try_after_ten_todos "python"))
        /\ reports "Incomplete Error Handling" 11 iss.
Proof.
  split; [reflexivity|]. split; [reflexivity|]. split.
  - intros Hh. apply has_except_iff in Hh; [|lia].
    vm_compute in Hh. discriminate.
  - intros [iss [Hin [_ Hline]]]. vm_compute in Hin.
    repeat (destruct Hin as [<-|Hin]; [vm_compute in Hline; discriminate|]).
    contradiction.
Qed.

(** C8 as stated fails on both paths: for a line indented by 20 columns
    the fallback path rates the complexity "High", and a reply whose object
    rates it "Terrible" is served with that rating; neither is one of the
    five ratings of the data model. *)
Lemma metrics_outside_spec_ratings :
  (exists r,
     fst (@review_code no_floats strict_validators (table_decoder []) LLMRaises
            (request_for deeply_indented "python")
            "20240101_000000" "2024-01-01T00:00:00" []) = Ok r
     /\ In ("complexity", "High") (metrics r)
     /\ ~ In "High" spec_ratings)
  /\ (exists r,
        fst (@review_code no_floats strict_validators
               (table_decoder
                  [(odd_metrics_text,
                    JDict [("metrics", JDict [("complexity", JStr "Terrible")])])])
               (LLMContent ("Here you go: " ++ odd_metrics_text))
               (request_for "print(1)" "python")
               "20240101_000000" "2024-01-01T00:00:00" []) = Ok r
        /\ In ("complexity", "Terrible") (metrics r)
        /\ ~ In "Terrible" spec_ratings).
Proof.
  split; eexists; (split; [vm_compute; reflexivity|]); (split; [simpl; auto|]);
    unfold spec_ratings; simpl; intuition discriminate.
Qed.

(** C9 as stated fails three ways: [x = information] assigns to a
    single-letter name outside any loop and yields nothing, because the
    text contains [for]; [X = 1] yields nothing, because the letter is upper
    case; and [x = 1] on line 11 after ten TODO lines is cut off. *)
Lemma short_variable_missed :
  (re_found re_short_var "x = information" = true
   /\ loop_control_line "x = information" = false
   /\ payload_issues (@generate_fallback_review no_floats "x = information" "python") = [])
  /\ (loop_control_line "X = 1" = false
      /\ payload_issues (@generate_fallback_review no_floats "X = 1" "python") = [])
  /\ (nth_error (split_lines assignment_after_ten_todos) 10 = Some "x = 1"
      /\ re_found re_short_var "x = 1" = true
      /\ loop_control_line "x = 1" = false
      /\ ~ exists iss,
            In iss (payload_issues
                      (@generate_fallback_review no_floats
                         assignment_after_ten_todos "python"))
            /\ reports "Non-descriptive Variable Name" 11 iss).
Proof.
  split; [repeat split; reflexivity|]. split; [split; reflexivity|].
  split; [reflexivity|]. split; [reflexivity|]. split; [reflexivity|].
  intros [iss [Hin [_ Hline]]]. vm_compute in Hin.
  repeat (destruct Hin as [<-|Hin]; [vm_compute in Hline; discriminate|]).
  contradiction.
Qed.

(** The theorems with hypotheses, applied at concrete inputs. The decoder
    of the first one knows the one text the reply holds. *)
Lemma generative_score_not_clamped_witness :
  exists r,
    fst (@review_code no_floats strict_validators
           (table_decoder [(score_object_text, JDict [("score", JInt 150)])])
           (LLMContent score_reply_text) (request_for "print(1)" "python")
           "20240101_000000" "2024-01-01T00:00:00" []) = Ok r
    /\ score r = 150%Z
    /\ ~ (0 <= score r <= 100)%Z.
Proof.
  apply (@generative_score_not_clamped no_floats strict_validators).
  reflexivity.
Defined.

Lemma llm_failure_falls_back_witness :
  @generate_llm_review no_floats (table_decoder [])
     (LLMContent "The service is busy.") "print(1)" "python"
  = generate_fallback_review "print(1)" "python"
  /\ exists r,
       fst (@review_code no_floats strict_validators (table_decoder [])
              (LLMContent "The service is busy.") (request_for "print(1)" "python")
              "20240101_000000" "2024-01-01T00:00:00" []) = Ok r.
Proof.
  apply (@llm_failure_falls_back no_floats strict_validators (table_decoder [])
           (LLMContent "The service is busy.") (request_for "print(1)" "python")).
  right; left. exists "The service is busy.". split; reflexivity.
Defined.

Lemma priority_ids_contiguous_witness :
  exists r,
    fst (@review_code no_floats strict_validators (table_decoder []) LLMRaises
           (request_for todo_then_def "python")
           "20240101_000000" "2024-01-01T00:00:00" []) = Ok r
    /\ List.length
         (payload_issues
            (@generate_llm_review no_floats (table_decoder []) LLMRaises
               todo_then_def "python")) = 1
    /\ map issue_id (priority r) = [1%Z]
    /\ Forall2 (@issue_from no_floats strict_validators)
         (payload_issues
            (@generate_llm_review no_floats (table_decoder []) LLMRaises
               todo_then_def "python"))
         (priority r).
Proof.
  eexists. split; [vm_compute; reflexivity|]. split; [reflexivity|].
  apply (@priority_ids_contiguous no_floats strict_validators (table_decoder [])
           LLMRaises (request_for todo_then_def "python")
           "20240101_000000" "2024-01-01T00:00:00" []).
  vm_compute. reflexivity.
Defined.

Lemma todo_line_reported_witness :
  exists iss,
    In iss (payload_issues (@generate_fallback_review no_floats todo_then_def "python"))
    /\ reports "Unresolved TODO/FIXME" 1 iss
    /\ py_field iss "severity" = Some (JStr "low").
Proof.
  apply (@todo_line_reported no_floats todo_then_def "python" 0 "# TODO: Fix this");
    [reflexivity|reflexivity|vm_compute; lia].
Defined.

Lemma try_block_reported_witness :
  (exists iss,
     In iss (payload_issues
               (@generate_fallback_review no_floats try_without_handler "python"))
     /\ reports "Incomplete Error Handling" 1 iss
     /\ py_field iss "severity" = Some (JStr "medium")
     /\ py_field iss "auto_fix_available" = Some (JBool true))
  /\ (In (debug_issue 2)
         (payload_issues (@generate_fallback_review no_floats try_with_handler "python"))
      /\ ~ reports "Incomplete Error Handling" 1 (@debug_issue no_floats 2)).
Proof.
  split.
  - apply (proj1 (@try_block_reported no_floats try_without_handler "python" 0 "try:"
                    eq_refl eq_refl)).
    + intros Hh. apply has_except_iff in Hh; [|lia].
      vm_compute in Hh. discriminate.
    + vm_compute; lia.
  - split; [vm_compute; auto|].
    apply (proj2 (@try_block_reported no_floats try_with_handler "python" 0 "try:"
                    eq_refl eq_refl)).
    + exists 2, "except Exception:". split; [lia|]. split; reflexivity.
    + vm_compute; auto.
Defined.

Lemma metrics_by_path_witness :
  exists r,
    fst (@review_code no_floats strict_validators (table_decoder []) LLMRaises
           (request_for deeply_indented "python")
           "20240101_000000" "2024-01-01T00:00:00" []) = Ok r
    /\ metrics r = [("complexity", "High"); ("maintainability", "Good");
                    ("security", "Needs Review"); ("performance", "Good")]
    /\ forall k v, In (k, v) (metrics r) -> In v fallback_ratings.
Proof.
  eexists. split; [vm_compute; reflexivity|].
  apply (proj1 (@metrics_by_path no_floats strict_validators (table_decoder [])
                  LLMRaises (request_for deeply_indented "python")
                  "20240101_000000" "2024-01-01T00:00:00" [] _ eq_refl)).
  reflexivity.
Defined.

Lemma short_variable_reported_witness :
  exists iss,
    In iss (payload_issues (@generate_fallback_review no_floats "x = 1" "python"))
    /\ reports "Non-descriptive Variable Name" 1 iss
    /\ py_field iss "severity" = Some (JStr "low").
Proof.
  apply (@short_variable_reported no_floats "x = 1" "python" 0 "x = 1");
    [reflexivity|reflexivity|reflexivity|vm_compute; lia].
Defined.

Lemma todo_check_case_sensitive_witness :
  In (short_var_issue 1)
     (payload_issues
        (@generate_fallback_review no_floats "x = 1  # todo: fixme later" "python"))
  /\ ~ reports "Unresolved TODO/FIXME" 1 (@short_var_issue no_floats 1).
Proof.
  split; [vm_compute; auto|].
  apply (@todo_check_case_sensitive no_floats "x = 1  # todo: fixme later" "python"
           0 "x = 1  # todo: fixme later");
    [reflexivity|reflexivity|reflexivity|vm_compute; auto].
Defined.

(** * Further properties of the code *)

(** ** Lines *)

Lemma split_lines_not_nil (s : string) : split_lines s <> [].
Proof.
  destruct s as [|c s]; simpl; [discriminate|].
  destruct (Ascii.eqb c newline); [discriminate|].
  destruct (split_lines s); discriminate.
Qed.

(** [split('\n')] and ["\n".join] are inverse on every text, and no line of
    the split holds a newline. *)
Theorem split_lines_join (s : string) :
  join_lines (split_lines s) = s
  /\ Forall (fun l => has_char newline l = false) (split_lines s)
  /\ 1 <= List.length (split_lines s).
Proof.
  induction s as [|c s [IHjoin [IHall IHlen]]].
  - simpl. repeat split; [constructor; [reflexivity|constructor]|lia].
  - simpl. destruct (Ascii.eqb c newline) eqn:Ec.
    + apply Ascii.eqb_eq in Ec; subst c.
      pose proof (split_lines_not_nil s) as Hne.
      destruct (split_lines s) as [|l ls] eqn:E; [contradiction|].
      split; [|split].
      * change (join_lines (EmptyString :: l :: ls))
          with (String newline (join_lines (l :: ls))).
        now rewrite IHjoin.
      * constructor; [reflexivity|exact IHall].
      * simpl; lia.
    + pose proof (split_lines_not_nil s) as Hne.
      destruct (split_lines s) as [|l ls] eqn:E; [contradiction|].
      split; [|split].
      * rewrite <- IHjoin. destruct ls; reflexivity.
      * inversion IHall as [|? ? Hl Hls]; subst.
        constructor; [|exact Hls].
        cbn [has_char]. rewrite Hl, Ascii.eqb_sym, Ec. reflexivity.
      * simpl in *; lia.
Qed.

(** ** Complexity analyzer *)

Lemma max_nesting_nonneg (lines : list string) (acc : Z) :
  (0 <= acc)%Z ->
  (0 <= fold_left (fun m l => Z.max m (indent_of l / 4)%Z) lines acc)%Z.
Proof.
  revert acc; induction lines as [|l lines IH]; intros acc Hacc; simpl;
    [exact Hacc|].
  apply IH. lia.
Qed.

Lemma length_filter_le {B : Type} (f : B -> bool) (l : list B) :
  List.length (filter f l) <= List.length l.
Proof.
  induction l as [|x l IH]; simpl; [lia|].
  destruct (f x); simpl; lia.
Qed.

Lemma complexity_score_range (text : string) :
  (0 <= complexity_score (analyze_code_complexity text) <= 100)%Z.
Proof.
  unfold analyze_code_complexity. simpl.
  pose proof (max_nesting_nonneg (split_lines text) 0%Z (Z.le_refl 0)). lia.
Qed.

Lemma split_lines_length (text : string) : 1 <= List.length (split_lines text).
Proof.
  pose proof (split_lines_not_nil text). destruct (split_lines text); simpl;
    [contradiction|lia].
Qed.

(** The metrics of the complexity analyzer are bounded on every text: the
    score is in [0,100], nesting and control count are not negative, and
    there are at most as many code lines as lines, of which there is at
    least one. *)
Theorem complexity_bounds (text : string) :
  let c := analyze_code_complexity text in
  (0 <= complexity_score c <= 100)%Z
  /\ (0 <= max_nesting c)%Z
  /\ (0 <= control_structures c)%Z
  /\ (0 <= code_lines c <= total_lines c)%Z
  /\ (1 <= total_lines c)%Z.
Proof.
  unfold analyze_code_complexity. cbn zeta. simpl.
  pose proof (max_nesting_nonneg (split_lines text) 0%Z (Z.le_refl 0)) as Hnest.
  pose proof (length_filter_le strip_nonempty (split_lines text)) as Hcode.
  pose proof (split_lines_length text) as Hlen.
  repeat split; lia.
Qed.

(** The score of the fallback analyzer is the complexity score taken from
    100, and 50 where that would be less: it lies in [50,100] on every
    text. *)
Theorem fallback_score_law (text language0 : string) `{PyFloat} :
  let c := complexity_score (analyze_code_complexity text) in
  py_field (generate_fallback_review text language0) "score"
  = Some (JInt (if (c <=? 50)%Z then 100 - c else 50))
  /\ (50 <= (if (c <=? 50)%Z then 100 - c else 50) <= 100)%Z.
Proof.
  cbn zeta. pose proof (complexity_score_range text) as Hc.
  split.
  - unfold generate_fallback_review, py_field. simpl assoc.
    unfold fallback_score. do 2 f_equal.
    destruct (Z.leb_spec (complexity_score (analyze_code_complexity text)) 50); lia.
  - destruct (Z.leb_spec (complexity_score (analyze_code_complexity text)) 50); lia.
Qed.

(** ** More on the fallback analyzer *)

Section FallbackMore.
Context `{PyFloat}.

(** The returned issue list holds the first ten issues of the scan: its
    length is the smaller of 10 and the number of issues found. *)
Theorem fallback_issue_cap (text language0 : string) :
  List.length (payload_issues (generate_fallback_review text language0))
  = Nat.min 10 (List.length (scan_issues text))
  /\ List.length (payload_issues (generate_fallback_review text language0)) <= 10.
Proof.
  rewrite fallback_payload_issues, length_firstn. split; lia.
Qed.

(** A line matching the debug-print pattern yields a low-severity,
    auto-fixable "Debug Statement Found" issue for that line in the returned
    list, provided fewer than ten issues were appended before the check
    reaches it. *)
Theorem debug_line_reported (text language0 : string) (i : nat) (l : string) :
  nth_error (split_lines text) i = Some l ->
  re_found re_debug l = true ->
  List.length (issues_before (split_lines text) i ++ todo_part (S i) l) < 10 ->
  exists iss,
    In iss (payload_issues (generate_fallback_review text language0))
    /\ reports "Debug Statement Found" (S i) iss
    /\ py_field iss "severity" = Some (JStr "low")
    /\ py_field iss "auto_fix_available" = Some (JBool true).
Proof.
  intros E Hre Hroom. exists (debug_issue (S i)).
  split; [|split; [split|split]; reflexivity].
  rewrite fallback_payload_issues.
  apply (in_returned text i l (todo_part (S i) l)
           (short_var_part (S i) l ++ try_part (split_lines text) (S i) l));
    trivial.
  unfold line_issues, debug_part, has_debug. now rewrite Hre.
Qed.

(** Every issue of the returned list is justified by the text: it names a
    line that exists, and the check that belongs to its title holds on that
    line. *)
Theorem fallback_issue_justified (text language0 : string) (iss : pyval) :
  In iss (payload_issues (generate_fallback_review text language0)) ->
  exists i l,
    nth_error (split_lines text) i = Some l
    /\ py_field iss "line" = Some (JInt (Z.of_nat (S i)))
    /\ ((py_field iss "title" = Some (JStr "Unresolved TODO/FIXME")
         /\ contains "TODO" l || contains "FIXME" l = true)
        \/ (py_field iss "title" = Some (JStr "Debug Statement Found")
            /\ re_found re_debug l = true)
        \/ (py_field iss "title" = Some (JStr "Non-descriptive Variable Name")
            /\ re_found re_short_var l = true /\ contains "for" l = false)
        \/ (py_field iss "title" = Some (JStr "Incomplete Error Handling")
            /\ contains "try:" l = true
            /\ ~ handler_within (split_lines text) (S i))).
Proof.
  rewrite fallback_payload_issues. intros Hin.
  apply in_firstn_in, scan_issues_origin in Hin as [i [l [E Hin]]].
  exists i, l. split; [exact E|].
  apply line_issues_cases in Hin
    as [[Hc ->]|[[Hc ->]|[[Hc ->]|[Hc [Hex ->]]]]]; (split; [reflexivity|]).
  - left. now split.
  - right; left. now split.
  - right; right; left. unfold has_short_var in Hc.
    apply andb_true_iff in Hc as [Hre Hfor].
    apply negb_true_iff in Hfor. now repeat split.
  - right; right; right. repeat split; trivial.
    intros Hh. apply has_except_iff in Hh; [|lia]. congruence.
Qed.

Lemma line_issues_line (lines : list string) (n : nat) (l : string) (x : pyval) :
  In x (line_issues lines n l) -> issue_line x = Z.of_nat n.
Proof.
  intros Hin.
  apply line_issues_cases in Hin as [[_ ->]|[[_ ->]|[[_ ->]|[_ [_ ->]]]]];
    reflexivity.
Qed.

Lemma sorted_app (xs ys : list Z) :
  StronglySorted Z.le xs -> StronglySorted Z.le ys ->
  (forall x y, In x xs -> In y ys -> (x <= y)%Z) ->
  StronglySorted Z.le (xs ++ ys).
Proof.
  intros Hxs Hys Hcross. induction Hxs as [|x xs Hxs IH Hx]; simpl; [exact Hys|].
  constructor.
  - apply IH. intros a b Ha Hb. apply Hcross; [now right|exact Hb].
  - apply Forall_app. split; [exact Hx|].
    apply Forall_forall. intros y Hy. apply Hcross; [now left|exact Hy].
Qed.

Lemma sorted_constant (a : Z) (xs : list Z) :
  (forall x, In x xs -> x = a) -> StronglySorted Z.le xs.
Proof.
  induction xs as [|x xs IH]; intros Hall; constructor.
  - apply IH. intros y Hy. apply Hall. now right.
  - apply Forall_forall. intros y Hy.
    rewrite (Hall x (or_introl eq_refl)), (Hall y (or_intror Hy)). lia.
Qed.

Lemma sorted_firstn (n : nat) (xs : list Z) :
  StronglySorted Z.le xs -> StronglySorted Z.le (firstn n xs).
Proof.
  intros Hxs. revert n. induction Hxs as [|x xs Hxs IH Hx]; intros [|n]; simpl;
    try constructor.
  - apply IH.
  - apply Forall_forall. intros y Hy. apply in_firstn_in in Hy.
    now apply (proj1 (Forall_forall _ _) Hx).
Qed.

Lemma scan_lines_sorted (lines ls : list string) (a : nat) :
  let found := flat_map (fun '(j, l) => line_issues lines j l)
                        (combine (seq a (List.length ls)) ls) in
  StronglySorted Z.le (map issue_line found)
  /\ (forall x, In x found -> (Z.of_nat a <= issue_line x)%Z).
Proof.
  cbn zeta. revert a. induction ls as [|l ls IH]; intros a; simpl.
  - split; [constructor|contradiction].
  - destruct (IH (S a)) as [IHsorted IHlow]. split.
    + rewrite map_app. apply sorted_app; [|exact IHsorted|].
      * apply (sorted_constant (Z.of_nat a)). intros x Hx.
        apply in_map_iff in Hx as [y [<- Hy]]. now apply line_issues_line in Hy.
      * intros x y Hx Hy.
        apply in_map_iff in Hx as [x' [<- Hx]]. apply line_issues_line in Hx.
        apply in_map_iff in Hy as [y' [<- Hy]]. apply IHlow in Hy. lia.
    + intros x Hx. apply in_app_or in Hx as [Hx|Hx].
      * apply line_issues_line in Hx. lia.
      * apply IHlow in Hx. lia.
Qed.

(** The returned issues stand in scan order: their line numbers never
    decrease along the list, and no severity sorts them. *)
Theorem fallback_issues_in_line_order (text language0 : string) :
  StronglySorted Z.le
    (map issue_line (payload_issues (generate_fallback_review text language0))).
Proof.
  rewrite fallback_payload_issues, <- firstn_map. apply sorted_firstn.
  apply (scan_lines_sorted (split_lines text) (split_lines text) 1).
Qed.

End FallbackMore.

(** ** Extraction of the JSON text from a reply *)

Lemma has_char_app (c : ascii) (a b : string) :
  has_char c (a ++ b) = has_char c a || has_char c b.
Proof.
  induction a as [|x a IH]; simpl; [reflexivity|].
  now rewrite IH, orb_assoc.
Qed.

Lemma after_last_none (c : ascii) (s : string) :
  after_last c s = None <-> has_char c s = false.
Proof.
  induction s as [|x s IH]; simpl; [tauto|].
  destruct (after_last c s) as [t|].
  - split; [discriminate|]. intros Hf. apply orb_false_iff in Hf as [_ Hf].
    apply IH in Hf. discriminate.
  - destruct (Ascii.eqb c x); simpl.
    + split; discriminate.
    + split; intros _; [now apply IH|reflexivity].
Qed.

Lemma after_last_some (c : ascii) (s t : string) :
  after_last c s = Some t <->
  exists mid, s = (mid ++ String c t)%string /\ has_char c t = false.
Proof.
  revert t. induction s as [|x s IH]; intros t; simpl.
  - split; [discriminate|]. intros [[|y mid] [E _]]; discriminate.
  - destruct (after_last c s) as [t'|] eqn:Es.
    + split.
      * intros E; injection E as ->.
        destruct (proj1 (IH t) eq_refl) as [mid [-> Ht]].
        now exists (String x mid).
      * intros [mid [E Ht]]. destruct mid as [|y mid]; simpl in E.
        -- injection E as -> ->. apply after_last_none in Ht. congruence.
        -- injection E as -> ->.
           assert (G : Some t' = Some t) by (apply IH; now exists mid).
           exact G.
    + apply after_last_none in Es. destruct (Ascii.eqb c x) eqn:Ex.
      * apply Ascii.eqb_eq in Ex; subst x. split.
        -- intros E; injection E as ->. now exists EmptyString.
        -- intros [mid [E Ht]]. destruct mid as [|y mid]; simpl in E.
           ++ now injection E as ->.
           ++ injection E as -> ->. rewrite has_char_app in Es. simpl in Es.
              rewrite Ascii.eqb_refl, orb_true_r in Es. discriminate.
      * split; [discriminate|].
        intros [mid [E Ht]]. destruct mid as [|y mid]; simpl in E.
        -- injection E as -> ->. rewrite Ascii.eqb_refl in Ex. discriminate.
        -- injection E as -> ->. rewrite has_char_app in Es. simpl in Es.
           rewrite Ascii.eqb_refl, orb_true_r in Es. discriminate.
Qed.

Lemma star_any_then_close (prev : option ascii) (s : string) :
  star_at (fun _ => true)
    (fun prev' s' => match_at (Seq (Lit "}"%char) Eps) prev' s'
                       (fun _ rest => Some rest))
    prev s
  = after_last "}"%char s.
Proof.
  revert prev. induction s as [|x s IH]; intros prev; [reflexivity|].
  cbn [star_at after_last]. rewrite IH.
  destruct (after_last "}"%char s); reflexivity.
Qed.

Lemma match_here_json (prev : option ascii) (s : string) :
  match_here re_json prev s
  = match s with
    | EmptyString => None
    | String c rest => if Ascii.eqb "{"%char c then after_last "}"%char rest else None
    end.
Proof.
  destruct s as [|c rest]; [reflexivity|].
  unfold match_here, re_json. cbn [seqs match_at].
  destruct (Ascii.eqb "{"%char c); [|reflexivity].
  apply star_any_then_close.
Qed.

Lemma search_from_json (prev : option ascii) (s : string) :
  search_from re_json prev s = json_span s.
Proof.
  revert prev. induction s as [|c rest IH]; intros prev.
  - reflexivity.
  - cbn [search_from json_span]. rewrite match_here_json.
    destruct (Ascii.eqb "{"%char c); [|apply IH].
    destruct (after_last "}"%char rest); [reflexivity|apply IH].
Qed.

Lemma substring_prefix (a b : string) :
  substring 0 (length a) (a ++ b) = a.
Proof.
  induction a as [|x a IH]; simpl.
  - destruct b; reflexivity.
  - now rewrite IH.
Qed.

Lemma length_app_string (a b : string) :
  length (a ++ b) = length a + length b.
Proof. induction a as [|x a IH]; simpl; [reflexivity|now rewrite IH]. Qed.

Lemma app_assoc_string (a b c : string) :
  ((a ++ b) ++ c = a ++ (b ++ c))%string.
Proof. induction a as [|x a IH]; simpl; [reflexivity|now rewrite IH]. Qed.

Lemma span_text (mid t : string) :
  substring 0 (length (String "{" (mid ++ String "}" t)) - length t)
            (String "{" (mid ++ String "}" t))
  = ("{" ++ mid ++ "}")%string.
Proof.
  replace (String "{" (mid ++ String "}" t))
    with (("{" ++ mid ++ "}") ++ t)%string
    by (simpl; now rewrite app_assoc_string).
  rewrite length_app_string.
  replace (length ("{" ++ mid ++ "}") + length t - length t)
    with (length ("{" ++ mid ++ "}")) by lia.
  apply substring_prefix.
Qed.

Lemma json_span_sound (s text : string) :
  json_span s = Some text ->
  exists pre mid post,
    s = (pre ++ "{" ++ mid ++ "}" ++ post)%string
    /\ text = ("{" ++ mid ++ "}")%string
    /\ has_char "{"%char pre = false
    /\ has_char "}"%char post = false.
Proof.
  revert text. induction s as [|c rest IH]; intros text; [discriminate|].
  cbn [json_span]. destruct (Ascii.eqb "{"%char c) eqn:Ec.
  - apply Ascii.eqb_eq in Ec; subst c.
    destruct (after_last "}"%char rest) as [t|] eqn:Et.
    + apply after_last_some in Et as [mid [-> Ht]].
      rewrite span_text. intros E; injection E as <-.
      exists EmptyString, mid, t. now repeat split.
    + intros E. apply IH in E as (pre & mid & post & -> & _).
      apply after_last_none in Et.
      rewrite !has_char_app in Et. simpl in Et.
      rewrite !orb_true_r in Et. discriminate.
  - intros E. apply IH in E as (pre & mid & post & -> & -> & Hpre & Hpost).
    exists (String c pre), mid, post. repeat split; trivial.
    cbn [has_char]. now rewrite Ec.
Qed.

Lemma json_span_complete (pre mid post : string) :
  has_char "{"%char pre = false ->
  has_char "}"%char post = false ->
  json_span (pre ++ "{" ++ mid ++ "}" ++ post) = Some ("{" ++ mid ++ "}")%string.
Proof.
  intros Hpre Hpost. induction pre as [|x pre IH].
  - change (EmptyString ++ "{" ++ mid ++ "}" ++ post)%string
      with (String "{" (mid ++ String "}" post)).
    cbn [json_span]. rewrite Ascii.eqb_refl.
    replace (after_last "}"%char (mid ++ String "}" post)) with (Some post)
      by (symmetry; apply after_last_some; now exists mid).
    now rewrite span_text.
  - cbn [has_char] in Hpre. apply orb_false_iff in Hpre as [Hx Hpre].
    change (String x pre ++ "{" ++ mid ++ "}" ++ post)%string
      with (String x (pre ++ "{" ++ mid ++ "}" ++ post)).
    cbn [json_span]. rewrite Hx. now apply IH.
Qed.

(** [re.search(r'\{.*\}', content, re.DOTALL)] takes the text from the first
    opening brace to the last closing brace of the reply: it returns [text]
    exactly when the reply is [pre ++ text ++ post] with [text] in braces,
    no opening brace in [pre] and no closing brace in [post]. *)
Theorem json_extraction_span (content text : string) :
  re_search re_json content = Some text <->
  exists pre mid post,
    content = (pre ++ "{" ++ mid ++ "}" ++ post)%string
    /\ text = ("{" ++ mid ++ "}")%string
    /\ has_char "{"%char pre = false
    /\ has_char "}"%char post = false.
Proof.
  unfold re_search. rewrite search_from_json. split.
  - apply json_span_sound.
  - intros (pre & mid & post & -> & -> & Hpre & Hpost).
    now apply json_span_complete.
Qed.

(** The search finds nothing exactly when no opening brace of the reply has
    a closing brace after it. *)
Theorem json_extraction_none (content : string) :
  re_search re_json content = None <->
  forall pre mid post, content <> (pre ++ "{" ++ mid ++ "}" ++ post)%string.
Proof.
  unfold re_search. rewrite search_from_json. split.
  - induction content as [|c rest IH]; intros Hnone pre mid post E.
    + destruct pre; discriminate.
    + cbn [json_span] in Hnone. destruct (Ascii.eqb "{"%char c) eqn:Ec.
      * destruct (after_last "}"%char rest) as [t|] eqn:Et; [discriminate|].
        apply after_last_none in Et.
        destruct pre as [|x pre]; simpl in E; injection E as _ ->;
          rewrite ?has_char_app in Et; simpl in Et;
          rewrite ?has_char_app in Et; simpl in Et;
          rewrite ?orb_true_r in Et; discriminate.
      * destruct pre as [|x pre]; simpl in E; injection E as -> E.
        -- rewrite Ascii.eqb_refl in Ec. discriminate.
        -- now apply (IH Hnone pre mid post).
  - intros Hno. destruct (json_span content) as [text|] eqn:E; [|reflexivity].
    apply json_span_sound in E as (pre & mid & post & E & _).
    now apply Hno in E.
Qed.

(** ** Defaults and rejections of the assembler *)

Section AssemblerMore.
Context `{V : Validators}.
Variable json_loads : string -> option pyval.

Lemma py_get_dict (items : list (string * pyval)) (key : string) (default : pyval) :
  py_get (JDict items) key default
  = Some (match assoc key items with Some x => x | None => default end).
Proof. unfold py_get. destruct (assoc key items); reflexivity. Qed.

(** A reply whose JSON object has none of the keys [issues], [score],
    [metrics] and [team_insights] is served with the defaults: score 75,
    improvement [+5], no issue, the four default ratings and the two default
    insights. *)
Theorem payload_defaults (reply : llm_outcome) (items : list (string * pyval))
    (request : CodeReviewRequest) (now_id now_iso : string) (db : reviews_db) :
  llm_attempt json_loads reply = Some (JDict items) ->
  assoc "issues" items = None ->
  assoc "score" items = None ->
  assoc "metrics" items = None ->
  assoc "team_insights" items = None ->
  fst (review_code json_loads reply request now_id now_iso db)
  = Ok {| review_id := String.append "review_" now_id;
          score := 75;
          improvement := "+5";
          priority := [];
          metrics := [("complexity", "Medium"); ("maintainability", "Good");
                      ("security", "Good"); ("performance", "Good")];
          team_insights := ["Code follows team conventions";
                            "Consider adding more test coverage"];
          timestamp := now_iso |}.
Proof.
  intros Hpayload Hissues Hscore Hmetrics Hinsights.
  unfold review_code, generate_llm_review. rewrite Hpayload.
  unfold assemble_review. rewrite !py_get_dict.
  rewrite Hissues, Hscore, Hmetrics, Hinsights.
  cbn [bind py_iter format_issues calculate_improvement].
  rewrite str_digits_ok_small by (simpl; lia). cbn [bind].
  rewrite validate_int_int. cbn [bind].
  change default_metrics
    with (JDict (map (fun kv => (fst kv, JStr (snd kv)))
                     [("complexity", "Medium"); ("maintainability", "Good");
                      ("security", "Good"); ("performance", "Good")])).
  rewrite validate_str_dict_strs
    by (simpl; repeat constructor; simpl; intuition discriminate).
  change default_insights
    with (JList (map JStr ["Code follows team conventions";
                           "Consider adding more test coverage"])).
  rewrite validate_str_list_strs. reflexivity.
Qed.

(** An issue built from a dictionary takes the loop's index as its id, has
    no code snippet, and gets the documented default for every field the
    dictionary lacks. *)
Theorem issue_field_defaults (idx : Z) (items : list (string * pyval)) (iss : Issue) :
  make_issue idx (JDict items) = Some iss ->
  issue_id iss = idx
  /\ code_snippet iss = None
  /\ (assoc "severity" items = None -> severity iss = "low")
  /\ (assoc "title" items = None -> title iss = "Unknown Issue")
  /\ (assoc "description" items = None -> description iss = "")
  /\ (assoc "line" items = None -> line iss = 1%Z)
  /\ (assoc "impact" items = None -> impact iss = "Low")
  /\ (assoc "fix_time" items = None -> fix_time iss = "10 min")
  /\ (assoc "business_impact" items = None -> business_impact iss = "Minor impact")
  /\ (assoc "suggestion" items = None -> suggestion iss = "Review and fix")
  /\ (assoc "auto_fix_available" items = None -> auto_fix_available iss = false).
Proof.
  unfold make_issue. rewrite !py_get_dict. cbn [bind]. intros Hmade.
  apply bind_some in Hmade as [a1 [H1 Hmade]].
  apply bind_some in Hmade as [a2 [H2 Hmade]].
  apply bind_some in Hmade as [a3 [H3 Hmade]].
  apply bind_some in Hmade as [a4 [H4 Hmade]].
  apply bind_some in Hmade as [a5 [H5 Hmade]].
  apply bind_some in Hmade as [a6 [H6 Hmade]].
  apply bind_some in Hmade as [a7 [H7 Hmade]].
  apply bind_some in Hmade as [a8 [H8 Hmade]].
  apply bind_some in Hmade as [a9 [H9 Hmade]].
  injection Hmade as <-. cbn.
  split; [reflexivity|]. split; [reflexivity|].
  repeat split; intros Hnone;
    match goal with
    | Hv : _ (match assoc ?k items with _ => _ end) = Some ?a |- ?a = _ =>
        rewrite Hnone in Hv;
        first [rewrite validate_str_str in Hv
              |rewrite validate_int_int in Hv
              |rewrite validate_bool_bool in Hv];
        now injection Hv
    end.
Qed.

Lemma format_issues_non_dict (items : list pyval) (item : pyval) :
  In item items -> is_dict item = false ->
  forall idx, format_issues idx items = None.
Proof.
  intros Hin Hnd. induction items as [|x items IH]; [contradiction|].
  intros idx. cbn [format_issues]. destruct Hin as [->|Hin].
  - assert (E : make_issue idx item = None)
      by (destruct item; try discriminate; reflexivity).
    now rewrite E.
  - destruct (make_issue idx x); [|reflexivity]. cbn [bind].
    now rewrite (IH Hin).
Qed.

(** A decoded reply is turned into status 500, the store left as it was,
    when its score is not a number, or its issue entry cannot be iterated,
    or one item of its issue list is not a dictionary. *)
Theorem malformed_payload_rejected (reply : llm_outcome) (payload : pyval)
    (request : CodeReviewRequest) (now_id now_iso : string) (db : reviews_db) :
  llm_attempt json_loads reply = Some payload ->
  (exists v, py_get payload "score" (JInt 75) = Some v /\ is_number v = false)
  \/ (exists v, py_get payload "issues" (JList []) = Some v /\ py_iter v = None)
  \/ (exists items item,
        bind (py_get payload "issues" (JList [])) py_iter = Some items
        /\ In item items /\ is_dict item = false) ->
  review_code json_loads reply request now_id now_iso db = (HttpError 500, db).
Proof.
  intros Hpayload Hbad.
  unfold review_code, generate_llm_review. rewrite Hpayload.
  enough (E : assemble_review payload request now_id now_iso = None)
    by now rewrite E.
  unfold assemble_review.
  destruct Hbad as [[v [Hv Hnum]]|[[v [Hv Hiter]]|[items [item [Hitems [Hin Hnd]]]]]].
  - destruct (py_get payload "issues" (JList [])) as [vi|]; [|reflexivity].
    cbn [bind]. destruct (py_iter vi) as [its|]; [|reflexivity].
    cbn [bind]. destruct (format_issues 1 its); [|reflexivity].
    cbn [bind]. rewrite Hv. cbn [bind].
    destruct v; try discriminate; reflexivity.
  - rewrite Hv. cbn [bind]. now rewrite Hiter.
  - destruct (py_get payload "issues" (JList [])) as [vi|]; [|discriminate].
    cbn [bind] in Hitems |- *. rewrite Hitems. cbn [bind].
    now rewrite (format_issues_non_dict items item Hin Hnd).
Qed.

End AssemblerMore.

(** The improvement text carries its sign. For an integer score whose
    difference from the baseline of 70 has at most 4300 digits the text
    starts with [+] above 70, with [-] below it, and is [0] at 70; for a
    difference of more digits the conversion raises and there is no text. *)
Theorem improvement_sign `{PyFloat} (z : Z) (team : string) :
  (String.length (str_of_Z (Z.abs (z - 70))) <= 4300 ->
   exists text,
     calculate_improvement (JInt z) team = Some text
     /\ ((70 < z)%Z -> exists digits, text = String "+" digits)
     /\ (z = 70%Z -> text = "0")
     /\ ((z < 70)%Z -> exists digits, text = String "-" digits))
  /\ (4300 < String.length (str_of_Z (Z.abs (z - 70))) ->
      calculate_improvement (JInt z) team = None).
Proof.
  unfold calculate_improvement. cbn zeta.
  unfold str_digits_ok, int_max_str_digits. split; intros Hdigits.
  - replace (String.length (str_of_Z (Z.abs (z - 70))) <=? 4300)%nat with true
      by (symmetry; now apply Nat.leb_le).
    eexists. split; [reflexivity|]. unfold signed_text.
    destruct (z - 70)%Z as [|p|p] eqn:E.
    + split; [|split]; intros Hz; [lia|reflexivity|lia].
    + split; [|split]; intros Hz; [|lia|lia]. eexists. reflexivity.
    + split; [|split]; intros Hz; [lia|lia|]. eexists. reflexivity.
  - replace (String.length (str_of_Z (Z.abs (z - 70))) <=? 4300)%nat with false
      by (symmetry; apply Nat.leb_gt; exact Hdigits).
    reflexivity.
Qed.

(** ** Dictionaries *)

Lemma assoc_dict_set_same {B : Type} (key : string) (v : B) (d : list (string * B)) :
  assoc key (dict_set key v d) = Some v.
Proof.
  induction d as [|[k w] d IH]; simpl.
  - now rewrite String.eqb_refl.
  - destruct (String.eqb key k) eqn:E; simpl; rewrite E; [reflexivity|exact IH].
Qed.

Lemma assoc_dict_set_other {B : Type} (key other : string) (v : B)
    (d : list (string * B)) :
  other <> key -> assoc other (dict_set key v d) = assoc other d.
Proof.
  intros Hne. induction d as [|[k w] d IH]; simpl.
  - apply String.eqb_neq in Hne. now rewrite Hne.
  - destruct (String.eqb key k) eqn:E; simpl.
    + apply String.eqb_eq in E; subst k.
      apply String.eqb_neq in Hne. now rewrite Hne.
    + now rewrite IH.
Qed.

Lemma assoc_none_keys {B : Type} (key : string) (d : list (string * B)) :
  assoc key d = None <-> ~ In key (map fst d).
Proof.
  induction d as [|[k w] d IH]; simpl; [tauto|].
  destruct (String.eqb key k) eqn:E.
  - apply String.eqb_eq in E; subst k. split; [discriminate|tauto].
  - apply String.eqb_neq in E. rewrite IH. split.
    + intros Hn [Hk|Hin]; [congruence|tauto].
    + tauto.
Qed.

Lemma dict_set_fresh {B : Type} (key : string) (v : B) (d : list (string * B)) :
  assoc key d = None -> dict_set key v d = d ++ [(key, v)].
Proof.
  induction d as [|[k w] d IH]; simpl; [reflexivity|].
  destruct (String.eqb key k); [discriminate|].
  intros Hnone. now rewrite IH.
Qed.

Lemma dict_set_present {B : Type} (key : string) (v w : B) (d : list (string * B)) :
  assoc key d = Some w -> map fst (dict_set key v d) = map fst d.
Proof.
  induction d as [|[k u] d IH]; simpl; [discriminate|].
  destruct (String.eqb key k) eqn:E; simpl; [reflexivity|].
  intros Hsome. now rewrite IH.
Qed.

Lemma dict_set_nodup {B : Type} (key : string) (v : B) (d : list (string * B)) :
  NoDup (map fst d) -> NoDup (map fst (dict_set key v d)).
Proof.
  intros Hnd. destruct (assoc key d) as [w|] eqn:E.
  - now rewrite (dict_set_present key v w d E).
  - rewrite (dict_set_fresh key v d E), map_app. simpl.
    apply assoc_none_keys in E.
    apply NoDup_app; repeat split; trivial.
    + repeat constructor. simpl; tauto.
    + intros x Hx [<-|[]]. contradiction.
Qed.

Lemma assoc_dict_del_other {B : Type} (key other : string) (d : list (string * B)) :
  other <> key -> assoc other (dict_del key d) = assoc other d.
Proof.
  intros Hne. induction d as [|[k w] d IH]; simpl; [reflexivity|].
  destruct (String.eqb key k) eqn:E; simpl.
  - apply String.eqb_eq in E; subst k.
    apply String.eqb_neq in Hne. now rewrite Hne.
  - now rewrite IH.
Qed.

Lemma dict_del_keys {B : Type} (key : string) (d : list (string * B)) :
  NoDup (map fst d) ->
  NoDup (map fst (dict_del key d))
  /\ ~ In key (map fst (dict_del key d))
  /\ (forall x, In x (map fst (dict_del key d)) -> In x (map fst d)).
Proof.
  induction d as [|[k w] d IH]; simpl; intros Hnd.
  - repeat split; trivial. tauto.
  - inversion Hnd as [|? ? Hk Hd]; subst.
    destruct (String.eqb key k) eqn:E.
    + apply String.eqb_eq in E; subst k. repeat split; trivial. tauto.
    + apply String.eqb_neq in E. destruct (IH Hd) as [IHnd [IHnot IHsub]].
      simpl. repeat split.
      * constructor; [|exact IHnd]. intros Hin. apply Hk. now apply IHsub.
      * intros [Heq|Hin]; [congruence|tauto].
      * intros x [<-|Hin]; [now left|right; now apply IHsub].
Qed.

Lemma dict_del_length {B : Type} (key : string) (w : B) (d : list (string * B)) :
  assoc key d = Some w -> S (List.length (dict_del key d)) = List.length d.
Proof.
  induction d as [|[k u] d IH]; simpl; [discriminate|].
  destruct (String.eqb key k); [reflexivity|].
  intros Hsome. simpl. now rewrite IH.
Qed.

(** ** More on the review store *)

Section StoreMore.
Context `{V : Validators}.
Variable json_loads : string -> option pyval.

Lemma review_code_ok (reply : llm_outcome) (request : CodeReviewRequest)
    (now_id now_iso : string) (db db' : reviews_db) (r : ReviewResponse) :
  review_code json_loads reply request now_id now_iso db = (Ok r, db') ->
  db' = dict_set (review_id r) r db
  /\ review_id r = String.append "review_" now_id
  /\ timestamp r = now_iso.
Proof.
  unfold review_code.
  destruct (assemble_review _ request now_id now_iso) as [r'|] eqn:E;
    [|discriminate].
  intros Hok; injection Hok as -> <-. split; [reflexivity|].
  unfold assemble_review in E.
  repeat (apply bind_some in E as [? [_ E]]).
  now injection E as <-.
Qed.

(** A review that was served can be fetched: right after [review_code]
    answers with a review, [get_review] on its id returns that review
    unchanged, its id is [review_] followed by the clock reading, and every
    other id answers as before. *)
Theorem review_stored_and_fetched (reply : llm_outcome) (request : CodeReviewRequest)
    (now_id now_iso : string) (db db' : reviews_db) (r : ReviewResponse) :
  review_code json_loads reply request now_id now_iso db = (Ok r, db') ->
  get_review (review_id r) db' = Ok r
  /\ review_id r = String.append "review_" now_id
  /\ (forall other, other <> review_id r -> get_review other db' = get_review other db).
Proof.
  intros Hok. apply review_code_ok in Hok as [-> [Hid _]].
  split; [|split; [exact Hid|]].
  - unfold get_review. now rewrite assoc_dict_set_same.
  - intros other Hne. unfold get_review. now rewrite assoc_dict_set_other.
Qed.

(** Ids come from the clock at one-second granularity and nothing detects a
    collision: a review served under a new id is appended to the store, and
    one served under an id already stored replaces that review in place, so
    the store (and the count of the health check) does not grow. *)
Theorem review_id_collision (reply : llm_outcome) (request : CodeReviewRequest)
    (now_id now_iso : string) (db db' : reviews_db) (r : ReviewResponse) :
  review_code json_loads reply request now_id now_iso db = (Ok r, db') ->
  (get_review (review_id r) db = HttpError 404 ->
   db' = db ++ [(review_id r, r)]
   /\ health_total_reviews (health_check now_iso db')
      = (health_total_reviews (health_check now_iso db) + 1)%Z)
  /\ (forall old, get_review (review_id r) db = Ok old ->
      map fst db' = map fst db
      /\ health_total_reviews (health_check now_iso db')
         = health_total_reviews (health_check now_iso db)).
Proof.
  intros Hok. apply review_code_ok in Hok as [-> _].
  unfold get_review, health_check; simpl. split.
  - destruct (assoc (review_id r) db) eqn:E; [discriminate|]. intros _.
    rewrite (dict_set_fresh _ r db E). split; [reflexivity|].
    rewrite length_app. simpl. lia.
  - intros old. destruct (assoc (review_id r) db) as [w|] eqn:E; [|discriminate].
    intros _. pose proof (dict_set_present _ r w db E) as Hkeys.
    split; [exact Hkeys|].
    apply (f_equal (@List.length string)) in Hkeys.
    rewrite !length_map in Hkeys. now rewrite Hkeys.
Qed.

(** The keys of the store stay distinct under both operations that change
    it. *)
Theorem store_keys_distinct (reply : llm_outcome) (request : CodeReviewRequest)
    (now_id now_iso rid : string) (db : reviews_db) :
  NoDup (map fst db) ->
  NoDup (map fst (snd (review_code json_loads reply request now_id now_iso db)))
  /\ NoDup (map fst (snd (delete_review rid db))).
Proof.
  intros Hnd. split.
  - unfold review_code.
    destruct (assemble_review _ request now_id now_iso); simpl; [|exact Hnd].
    now apply dict_set_nodup.
  - unfold delete_review. destruct (assoc rid db); simpl; [|exact Hnd].
    now apply dict_del_keys.
Qed.

End StoreMore.

(** Deleting a stored review makes it unreachable and touches nothing else:
    afterwards its id answers 404, every other id answers as before, and the
    store is one entry shorter. *)
Theorem delete_then_get (rid : string) (db : reviews_db) (r : ReviewResponse) :
  NoDup (map fst db) ->
  get_review rid db = Ok r ->
  fst (delete_review rid db) = Ok tt
  /\ get_review rid (snd (delete_review rid db)) = HttpError 404
  /\ (forall other, other <> rid ->
        get_review other (snd (delete_review rid db)) = get_review other db)
  /\ S (List.length (snd (delete_review rid db))) = List.length db.
Proof.
  intros Hnd. unfold get_review, delete_review.
  destruct (assoc rid db) as [w|] eqn:E; [|discriminate]. intros _. simpl.
  split; [reflexivity|]. split; [|split].
  - destruct (dict_del_keys rid db Hnd) as [_ [Hnot _]].
    apply assoc_none_keys in Hnot. now rewrite Hnot.
  - intros other Hne. now rewrite assoc_dict_del_other.
  - now apply (dict_del_length rid w).
Qed.

(** Deleting or fetching an id that is not stored answers 404 and leaves
    the store as it was. *)
Theorem missing_review_not_found (rid : string) (db : reviews_db) :
  ~ In rid (map fst db) ->
  get_review rid db = HttpError 404
  /\ delete_review rid db = (HttpError 404, db).
Proof.
  intros Hnot. apply assoc_none_keys in Hnot.
  unfold get_review, delete_review. now rewrite Hnot.
Qed.

(** How many reviews a listing holds, for every integer limit and a store
    of [n] reviews: [min limit n] for a positive limit, all [n] for limit 0,
    and [n - |limit|] (or none) for a negative limit, which drops the
    oldest [|limit|] reviews instead of bounding the answer. *)
Theorem list_reviews_size (limit : Z) (team : string) (db : reviews_db) :
  let n := Z.of_nat (List.length db) in
  Z.of_nat (List.length (reviews (list_reviews limit team db)))
  = (if (0 <? limit)%Z then Z.min limit n
     else if (limit =? 0)%Z then n
     else Z.max 0 (n + limit))
  /\ total (list_reviews limit team db) = n.
Proof.
  cbn zeta. unfold list_reviews, slice_from. simpl. split; [|reflexivity].
  rewrite length_skipn, length_map.
  destruct (Z.ltb_spec 0 limit) as [Hpos|Hnpos].
  - replace (- limit <? 0)%Z with true by (symmetry; apply Z.ltb_lt; lia). lia.
  - replace (- limit <? 0)%Z with false by (symmetry; apply Z.ltb_ge; lia).
    destruct (Z.eqb_spec limit 0); lia.
Qed.

(** A review served under a new id is the last entry of every listing with
    a limit of at least 1 made right after it. *)
Theorem newest_review_listed_last `{V : Validators}
    (json_loads : string -> option pyval) (reply : llm_outcome)
    (request : CodeReviewRequest) (now_id now_iso team : string)
    (db db' : reviews_db) (r : ReviewResponse) (limit : Z) :
  review_code json_loads reply request now_id now_iso db = (Ok r, db') ->
  get_review (review_id r) db = HttpError 404 ->
  (1 <= limit)%Z ->
  exists older, reviews (list_reviews limit team db') = older ++ [r].
Proof.
  intros Hok Hfresh Hlimit.
  apply review_code_ok in Hok as [-> _].
  unfold get_review in Hfresh.
  destruct (assoc (review_id r) db) eqn:E; [discriminate|].
  rewrite (dict_set_fresh _ r db E).
  destruct (list_reviews_positive_limit limit team (db ++ [(review_id r, r)]) Hlimit)
    as [-> _].
  rewrite map_app, skipn_app. simpl map.
  exists (skipn (List.length (db ++ [(review_id r, r)]) - Z.to_nat limit) (map snd db)).
  f_equal. rewrite length_app, length_map. simpl.
  replace (List.length db + 1 - Z.to_nat limit - List.length db) with 0 by lia.
  reflexivity.
Qed.

(** ** Team context aggregator *)

Lemma lower_char_idempotent (c : ascii) : lower_char (lower_char c) = lower_char c.
Proof.
  destruct c as [[] [] [] [] [] [] [] []]; vm_compute; reflexivity.
Qed.

Lemma py_lower_idempotent (s : string) : py_lower (py_lower s) = py_lower s.
Proof.
  induction s as [|c s IH]; simpl; [reflexivity|].
  now rewrite lower_char_idempotent, IH.
Qed.

Lemma count_issue_some (counters : list (string * Z)) (issue : Issue) :
  count_issue counters issue
  = Some (dict_set (py_lower (title issue))
                   (counter (py_lower (title issue)) counters + 1)%Z
                   (match assoc (py_lower (title issue)) counters with
                    | Some _ => counters
                    | None => dict_set (py_lower (title issue)) 0%Z counters
                    end)).
Proof.
  unfold count_issue, counter.
  destruct (assoc (py_lower (title issue)) counters) as [n|] eqn:E.
  - now rewrite E.
  - now rewrite assoc_dict_set_same.
Qed.

Lemma count_issue_counter (counters counters' : list (string * Z)) (issue : Issue)
    (key : string) :
  count_issue counters issue = Some counters' ->
  counter key counters'
  = (counter key counters
     + if String.eqb (py_lower (title issue)) key then 1 else 0)%Z.
Proof.
  rewrite count_issue_some. intros E; injection E as <-.
  destruct (String.eqb (py_lower (title issue)) key) eqn:Ek.
  - apply String.eqb_eq in Ek; subst key.
    unfold counter at 1. now rewrite assoc_dict_set_same.
  - apply String.eqb_neq in Ek.
    assert (Hne : key <> py_lower (title issue)) by congruence.
    unfold counter at 1. rewrite (assoc_dict_set_other _ _ _ _ Hne).
    unfold counter.
    destruct (assoc (py_lower (title issue)) counters);
      [|rewrite (assoc_dict_set_other _ _ _ _ Hne)];
      destruct (assoc key counters); lia.
Qed.

Lemma count_issues_counter (issues : list Issue) :
  forall counters,
  exists counters',
    count_issues counters issues = Some counters'
    /\ forall key, counter key counters'
                   = (counter key counters + Z.of_nat (titled key issues))%Z.
Proof.
  induction issues as [|issue issues IH]; intros counters.
  - exists counters. split; [reflexivity|]. intros key. unfold titled. simpl. lia.
  - cbn [count_issues]. rewrite count_issue_some. cbn [bind].
    destruct (IH (dict_set (py_lower (title issue))
                    (counter (py_lower (title issue)) counters + 1)%Z
                    (match assoc (py_lower (title issue)) counters with
                     | Some _ => counters
                     | None => dict_set (py_lower (title issue)) 0%Z counters
                     end))) as [counters' [-> Hcount]].
    exists counters'. split; [reflexivity|]. intros key. rewrite Hcount.
    rewrite (count_issue_counter counters _ issue key (count_issue_some counters issue)).
    unfold titled. simpl.
    destruct (String.eqb (py_lower (title issue)) key); simpl; lia.
Qed.

(** The update after a review never fails. It adds one to the review count,
    and to the counter of every key as many as the review has issues whose
    lower-cased title is that key; titles that differ only in case share a
    counter, and a key not counted before starts from zero. *)
Theorem update_team_context_counts (team : string) (review : ReviewResponse)
    (ctx : team_context) :
  exists ctx',
    update_team_context team review ctx = Some ctx'
    /\ reviews_count ctx' = (reviews_count ctx + 1)%Z
    /\ common_patterns ctx' = common_patterns ctx
    /\ forall key,
         counter key (common_issues ctx')
         = (counter key (common_issues ctx)
            + Z.of_nat (titled key (priority review)))%Z.
Proof.
  unfold update_team_context.
  destruct (count_issues_counter (priority review) (common_issues ctx))
    as [counters' [-> Hcount]].
  eexists. split; [reflexivity|]. simpl. repeat split. exact Hcount.
Qed.

(** After the updates of any run of completed reviews the review count has
    grown by the number of reviews, and each counter by the number of
    issues with that lower-cased title over the whole run; no counter ever
    decreases. *)
Theorem update_all_counts (team : string) (done : list ReviewResponse) :
  forall ctx,
  exists ctx',
    update_all team done ctx = Some ctx'
    /\ reviews_count ctx' = (reviews_count ctx + Z.of_nat (List.length done))%Z
    /\ forall key,
         counter key (common_issues ctx')
         = (counter key (common_issues ctx)
            + Z.of_nat (list_sum (map (fun r => titled key (priority r)) done)))%Z
         /\ (counter key (common_issues ctx) <= counter key (common_issues ctx'))%Z.
Proof.
  induction done as [|review done IH]; intros ctx.
  - exists ctx. split; [reflexivity|]. simpl. split; [lia|]. intros key. lia.
  - cbn [update_all]. unfold update_team_context.
    destruct (count_issues_counter (priority review) (common_issues ctx))
      as [counters1 [-> Hkeys1]].
    cbn [bind]. set (ctx1 := Build_team_context _ _ _ _).
    destruct (IH ctx1) as [ctx' [-> [Hcount Hkeys]]].
    exists ctx'. split; [reflexivity|]. split.
    + rewrite Hcount. subst ctx1. simpl. lia.
    + intros key. destruct (Hkeys key) as [Hk _]. rewrite Hk.
      subst ctx1. simpl common_issues. rewrite Hkeys1. simpl. lia.
Qed.

Lemma dict_set_twice {B : Type} (key : string) (v w : B) (d : list (string * B)) :
  dict_set key v (dict_set key w d) = dict_set key v d.
Proof.
  induction d as [|[k u] d IH]; simpl.
  - now rewrite String.eqb_refl.
  - destruct (String.eqb key k) eqn:E; simpl; rewrite E; [reflexivity|].
    now rewrite IH.
Qed.

Lemma dict_set_forall {B : Type} (P : string * B -> Prop) (key : string) (v : B)
    (d : list (string * B)) :
  Forall P d -> P (key, v) -> Forall P (dict_set key v d).
Proof.
  intros Hd Hnew. induction Hd as [|[k u] d Hku Hd IH]; simpl.
  - now repeat constructor.
  - destruct (String.eqb key k) eqn:E.
    + apply String.eqb_eq in E; subst k. now constructor.
    + now constructor.
Qed.

Lemma assoc_in {B : Type} (key : string) (v : B) (d : list (string * B)) :
  assoc key d = Some v -> In (key, v) d.
Proof.
  induction d as [|[k u] d IH]; simpl; [discriminate|].
  destruct (String.eqb key k) eqn:E.
  - apply String.eqb_eq in E; subst k. intros H; injection H as ->. now left.
  - intros H. right. now apply IH.
Qed.

(** One turn of the loop amounts to one write: the counter of the
    lower-cased title, read with default 0, plus one. *)
Lemma count_issue_eq (counters : list (string * Z)) (issue : Issue) :
  count_issue counters issue
  = Some (dict_set (py_lower (title issue))
                   (counter (py_lower (title issue)) counters + 1)%Z counters).
Proof.
  rewrite count_issue_some.
  destruct (assoc (py_lower (title issue)) counters); [reflexivity|].
  now rewrite dict_set_twice.
Qed.

Lemma count_issues_ok (issues : list Issue) :
  forall counters counters',
    counters_ok counters ->
    count_issues counters issues = Some counters' ->
    counters_ok counters'.
Proof.
  induction issues as [|issue issues IH]; intros counters counters' Hok.
  - simpl. intros E; now injection E as <-.
  - cbn [count_issues]. rewrite count_issue_eq. cbn [bind].
    apply IH. destruct Hok as [Hnd Hall]. split.
    + now apply dict_set_nodup.
    + apply dict_set_forall; [exact Hall|]. simpl. split.
      * apply py_lower_idempotent.
      * unfold counter.
        destruct (assoc (py_lower (title issue)) counters) as [n|] eqn:E; [|lia].
        apply assoc_in in E.
        apply (proj1 (Forall_forall _ _) Hall) in E. simpl in E. lia.
Qed.

(** Starting from the empty context of a new process, after the updates of
    any run of reviews the keys of [common_issues] are distinct and in
    lower case, and every stored counter is at least 1. *)
Theorem common_issues_invariant (team : string) (done : list ReviewResponse)
    (ctx' : team_context) :
  update_all team done initial_team_context = Some ctx' ->
  NoDup (map fst (common_issues ctx'))
  /\ Forall (fun kv => py_lower (fst kv) = fst kv /\ (1 <= snd kv)%Z)
            (common_issues ctx').
Proof.
  assert (Hinit : counters_ok (common_issues initial_team_context))
    by (split; constructor).
  revert Hinit. generalize initial_team_context as ctx.
  induction done as [|review done IH]; intros ctx Hok.
  - simpl. intros E; now injection E as <-.
  - cbn [update_all]. unfold update_team_context.
    destruct (count_issues (common_issues ctx) (priority review)) as [c1|] eqn:E;
      [|discriminate].
    cbn [bind]. apply IH. simpl.
    now apply (count_issues_ok (priority review) (common_issues ctx)).
Qed.

(** What the insights endpoint takes from the aggregate is the review
    count alone: after the updates of any run of reviews in a new process it
    reports the number of reviews, an empty pattern list (the stored one,
    never the default of [.get]) and the same fixed figures for everything
    else, whatever issues were counted. *)
Theorem insights_after_updates (team asked : string) (done : list ReviewResponse)
    (ctx' : team_context) :
  update_all team done initial_team_context = Some ctx' ->
  get_team_insights asked ctx'
  = {| insights_team_id := asked;
       insights_total_reviews := Z.of_nat (List.length done);
       insights_average_score := 78;
       insights_improvement := "+5";
       insights_common_patterns := [];
       insights_common_issues :=
         [("missing_error_handling", 12%Z); ("inefficient_queries", 8%Z);
          ("poor_naming", 15%Z); ("missing_tests", 6%Z)];
       insights_top_improvements :=
         ["Added error handling in 23 functions";
          "Optimized 15 database queries";
          "Improved test coverage by 18%"] |}.
Proof.
  intros Hrun. unfold get_team_insights.
  enough (G : forall ctx, update_all team done ctx = Some ctx' ->
                reviews_count ctx' = (reviews_count ctx + Z.of_nat (List.length done))%Z
                /\ common_patterns ctx' = common_patterns ctx).
  { destruct (G _ Hrun) as [-> ->]. reflexivity. }
  clear Hrun. induction done as [|review done IH]; intros ctx.
  - simpl. intros E; injection E as <-. split; [lia|reflexivity].
  - cbn [update_all]. unfold update_team_context.
    destruct (count_issues (common_issues ctx) (priority review)) as [c1|];
      [|discriminate].
    cbn [bind]. intros E. apply IH in E as [-> ->]. simpl. split; [lia|reflexivity].
Qed.

(** ** Language detector *)

(** The detector answers one of twelve tags for every file name and text,
    and a tag other than python, javascript and unknown can only come from
    the extension table. *)
Theorem detect_language_range (path_suffix : string -> string) (name text : string) :
  In (detect_language path_suffix name text)
     ["python"; "javascript"; "typescript"; "java"; "cpp"; "c"; "go"; "ruby";
      "php"; "csharp"; "swift"; "unknown"]
  /\ (~ In (detect_language path_suffix name text) ["python"; "javascript"; "unknown"] ->
      assoc (py_lower (path_suffix name)) ext_map
      = Some (detect_language path_suffix name text)).
Proof.
  unfold detect_language.
  destruct (assoc (py_lower (path_suffix name)) ext_map) as [tag|] eqn:E.
  - split; [|reflexivity].
    apply assoc_in in E. simpl in E.
    repeat (destruct E as [E|E]; [injection E as _ <-; simpl; tauto|]).
    contradiction.
  - destruct (contains "def " text && contains "import " text);
      [|destruct (contains "function " text || contains "const " text)];
      (split; [simpl; tauto|intros Hn; exfalso; apply Hn; simpl; tauto]).
Qed.

(** ** Chat endpoint *)

(** When the completion service fails, the chat answers from the canned
    table by the lower-cased message: messages that differ only in case get
    the same answer, and the answer is the generic one exactly when the
    lower-cased message is none of the three keys (a question mark or a
    space more is enough). *)
Theorem chat_fallback_answer (message now_iso : string) :
  (forall other, py_lower other = py_lower message ->
     response (chat_with_code LLMRaises other now_iso)
     = response (chat_with_code LLMRaises message now_iso))
  /\ (response (chat_with_code LLMRaises message now_iso) = generic_response
      <-> ~ In (py_lower message) ["why is this slow"; "explain this"; "how to fix"]).
Proof.
  split.
  - intros other Hsame. unfold chat_with_code. cbn [response]. now rewrite Hsame.
  - unfold chat_with_code. cbn [response].
    destruct (assoc (py_lower message) fallback_responses) as [answer|] eqn:E.
    + pose proof (assoc_in _ _ _ E) as Hin. split.
      * intros Hgen. subst answer. simpl in Hin.
        repeat (destruct Hin as [Hin|Hin]; [discriminate|]). contradiction.
      * intros Hnot. exfalso. apply Hnot. simpl in Hin |- *.
        destruct Hin as [Hin|[Hin|[Hin|[]]]]; injection Hin as <- _; tauto.
    + split; [|reflexivity]. intros _.
      apply assoc_none_keys in E. exact E.
Qed.

(** ** The further properties at concrete inputs *)

Lemma debug_line_reported_witness :
  exists iss,
    In iss (payload_issues (@generate_fallback_review no_floats "print(1)" "python"))
    /\ reports "Debug Statement Found" 1 iss
    /\ py_field iss "severity" = Some (JStr "low")
    /\ py_field iss "auto_fix_available" = Some (JBool true).
Proof.
  apply (@debug_line_reported no_floats "print(1)" "python" 0 "print(1)");
    [reflexivity|reflexivity|vm_compute; lia].
Defined.

Lemma fallback_issue_justified_witness :
  exists i l,
    nth_error (split_lines try_without_handler) i = Some l
    /\ py_field (@try_issue no_floats 1) "line" = Some (JInt (Z.of_nat (S i)))
    /\ ((py_field (@try_issue no_floats 1) "title" = Some (JStr "Unresolved TODO/FIXME")
         /\ contains "TODO" l || contains "FIXME" l = true)
        \/ (py_field (@try_issue no_floats 1) "title" = Some (JStr "Debug Statement Found")
            /\ re_found re_debug l = true)
        \/ (py_field (@try_issue no_floats 1) "title"
            = Some (JStr "Non-descriptive Variable Name")
            /\ re_found re_short_var l = true /\ contains "for" l = false)
        \/ (py_field (@try_issue no_floats 1) "title"
            = Some (JStr "Incomplete Error Handling")
            /\ contains "try:" l = true
            /\ ~ handler_within (split_lines try_without_handler) (S i))).
Proof.
  apply (@fallback_issue_justified no_floats try_without_handler "python"
           (try_issue 1)).
  vm_compute. auto.
Defined.

Lemma payload_defaults_witness :
  fst (@review_code no_floats strict_validators (table_decoder [("{}", JDict [])])
         (LLMContent "Nothing to report: {}") (request_for "print(1)" "python")
         "20240101_000000" "2024-01-01T00:00:00" [])
  = Ok {| review_id := "review_20240101_000000";
          score := 75;
          improvement := "+5";
          priority := [];
          metrics := [("complexity", "Medium"); ("maintainability", "Good");
                      ("security", "Good"); ("performance", "Good")];
          team_insights := ["Code follows team conventions";
                            "Consider adding more test coverage"];
          timestamp := "2024-01-01T00:00:00" |}.
Proof.
  apply (@payload_defaults no_floats strict_validators
           (table_decoder [("{}", JDict [])])
           (LLMContent "Nothing to report: {}") []); reflexivity.
Defined.

Lemma issue_field_defaults_witness :
  exists iss,
    @make_issue no_floats strict_validators 3 (JDict [("title", JStr "Leak")]) = Some iss
    /\ issue_id iss = 3%Z
    /\ title iss = "Leak"
    /\ severity iss = "low"
    /\ line iss = 1%Z
    /\ auto_fix_available iss = false.
Proof.
  eexists. split; [vm_compute; reflexivity|].
  destruct (@issue_field_defaults no_floats strict_validators 3
              [("title", JStr "Leak")] _ eq_refl)
    as (Hid & _ & Hsev & _ & _ & Hline & _ & _ & _ & _ & Hauto).
  split; [exact Hid|]. split; [reflexivity|].
  split; [exact (Hsev eq_refl)|]. split; [exact (Hline eq_refl)|exact (Hauto eq_refl)].
Defined.

Lemma malformed_payload_rejected_witness :
  @review_code no_floats strict_validators
     (table_decoder [(null_score_text, JDict [("score", JNull)])])
     (LLMContent null_score_text) (request_for "print(1)" "python")
     "20240101_000000" "2024-01-01T00:00:00" one_review_store
  = (HttpError 500, one_review_store).
Proof.
  apply (@malformed_payload_rejected no_floats strict_validators
           (table_decoder [(null_score_text, JDict [("score", JNull)])])
           (LLMContent null_score_text) (JDict [("score", JNull)]));
    [reflexivity|].
  left. exists JNull. split; reflexivity.
Defined.

Lemma review_stored_and_fetched_witness :
  exists r db',
    @review_code no_floats strict_validators (table_decoder []) LLMRaises
       (request_for todo_then_def "python")
       "20240102_120000" "2024-01-02T12:00:00" one_review_store = (Ok r, db')
    /\ get_review (review_id r) db' = Ok r
    /\ review_id r = "review_20240102_120000"
    /\ (forall other, other <> review_id r ->
          get_review other db' = get_review other one_review_store).
Proof.
  do 2 eexists. split; [vm_compute; reflexivity|].
  apply (@review_stored_and_fetched no_floats strict_validators (table_decoder [])
           LLMRaises (request_for todo_then_def "python")
           "20240102_120000" "2024-01-02T12:00:00" one_review_store).
  vm_compute. reflexivity.
Defined.

Lemma review_id_collision_witness :
  exists r db',
    @review_code no_floats strict_validators (table_decoder []) LLMRaises
       (request_for todo_then_def "python")
       "20240101_000000" "2024-01-01T00:00:00" one_review_store = (Ok r, db')
    /\ map fst db' = map fst one_review_store
    /\ health_total_reviews (health_check "2024-01-01T00:00:00" db') = 1%Z
    /\ get_review "review_20240101_000000" db' = Ok r.
Proof.
  do 2 eexists. split; [vm_compute; reflexivity|].
  match goal with
  | |- map fst ?d = _ /\ _ =>
      destruct (proj2 (@review_id_collision no_floats strict_validators
                         (table_decoder []) LLMRaises
                         (request_for todo_then_def "python")
                         "20240101_000000" "2024-01-01T00:00:00"
                         one_review_store d _ eq_refl)
                  (review_titled "review_20240101_000000" ["Leak"]) eq_refl)
        as [Hkeys Hcount]
  end.
  split; [exact Hkeys|]. split; [exact Hcount|]. vm_compute. reflexivity.
Defined.

Lemma store_keys_distinct_witness :
  NoDup (map fst (snd (@review_code no_floats strict_validators (table_decoder [])
                         LLMRaises (request_for todo_then_def "python")
                         "20240102_120000" "2024-01-02T12:00:00" one_review_store)))
  /\ NoDup (map fst (snd (delete_review "review_20240101_000000" one_review_store))).
Proof.
  apply (@store_keys_distinct no_floats strict_validators).
  simpl. repeat constructor. simpl. tauto.
Defined.

Lemma delete_then_get_witness :
  fst (delete_review "review_20240101_000000" one_review_store) = Ok tt
  /\ get_review "review_20240101_000000"
        (snd (delete_review "review_20240101_000000" one_review_store))
     = HttpError 404
  /\ (forall other, other <> "review_20240101_000000" ->
        get_review other (snd (delete_review "review_20240101_000000" one_review_store))
        = get_review other one_review_store)
  /\ S (List.length (snd (delete_review "review_20240101_000000" one_review_store)))
     = List.length one_review_store.
Proof.
  apply (delete_then_get "review_20240101_000000" one_review_store
           (review_titled "review_20240101_000000" ["Leak"])).
  - simpl. repeat constructor. simpl. tauto.
  - reflexivity.
Defined.

Lemma missing_review_not_found_witness :
  get_review "review_19990101_000000" one_review_store = HttpError 404
  /\ delete_review "review_19990101_000000" one_review_store
     = (HttpError 404, one_review_store).
Proof.
  apply (missing_review_not_found "review_19990101_000000" one_review_store).
  simpl. intros [E|[]]. discriminate.
Defined.

Lemma newest_review_listed_last_witness :
  exists r db' older,
    @review_code no_floats strict_validators (table_decoder []) LLMRaises
       (request_for todo_then_def "python")
       "20240102_120000" "2024-01-02T12:00:00" one_review_store = (Ok r, db')
    /\ reviews (list_reviews 1 "default" db') = older ++ [r].
Proof.
  do 2 eexists.
  match goal with
  | |- exists older, ?run = (Ok ?r, ?d) /\ _ =>
      assert (Hrun : run = (Ok r, d)) by (vm_compute; reflexivity)
  end.
  destruct (@newest_review_listed_last no_floats strict_validators (table_decoder [])
              LLMRaises (request_for todo_then_def "python")
              "20240102_120000" "2024-01-02T12:00:00" "default"
              one_review_store _ _ 1%Z Hrun eq_refl ltac:(lia))
    as [older Holder].
  exists older. split; [exact Hrun|exact Holder].
Defined.

Lemma common_issues_invariant_witness :
  exists ctx',
    update_all "default"
      [review_titled "a" ["Debug Statement Found"; "DEBUG statement found"];
       review_titled "b" ["Leak"]]
      initial_team_context = Some ctx'
    /\ NoDup (map fst (common_issues ctx'))
    /\ Forall (fun kv => py_lower (fst kv) = fst kv /\ (1 <= snd kv)%Z)
              (common_issues ctx').
Proof.
  eexists. split; [vm_compute; reflexivity|].
  apply (common_issues_invariant "default"
           [review_titled "a" ["Debug Statement Found"; "DEBUG statement found"];
            review_titled "b" ["Leak"]]).
  vm_compute. reflexivity.
Defined.

Lemma insights_after_updates_witness :
  exists ctx',
    update_all "default"
      [review_titled "a" ["Debug Statement Found"]; review_titled "b" ["Leak"]]
      initial_team_context = Some ctx'
    /\ insights_total_reviews (get_team_insights "backend" ctx') = 2%Z
    /\ insights_common_patterns (get_team_insights "backend" ctx') = []
    /\ insights_common_issues (get_team_insights "backend" ctx')
       = [("missing_error_handling", 12%Z); ("inefficient_queries", 8%Z);
          ("poor_naming", 15%Z); ("missing_tests", 6%Z)].
Proof.
  eexists. split; [vm_compute; reflexivity|].
  match goal with
  | |- insights_total_reviews (get_team_insights _ ?c) = _ /\ _ =>
      pose proof (insights_after_updates "default" "backend"
                    [review_titled "a" ["Debug Statement Found"];
                     review_titled "b" ["Leak"]] c) as Hinsights
  end.
  rewrite Hinsights by (vm_compute; reflexivity).
  repeat split.
Defined.
